(** * BuzzGauge: the blood-alcohol estimation core of [app/routes/home.tsx]

    A shallow embedding of the three pure functions of the route module,
    [calculateBac], [calculateChartData] and [estimateTimeUntilTarget],
    together with the constants and record types they use, and of the
    state handlers and memoised values of the [Home] component that call
    them ([handleAddDrink], [handleDeleteDrink], the clear-when-sober
    effect, the derived display values, [chartDomain] and the axis ticks).

    Numbers.  The source computes on JavaScript numbers.  They are embedded
    as exact rationals ([Q]): every operation the three functions perform
    ([+], [-], [*], [/], [Math.max], [>], [<=]) is then total and executable,
    and no rounding takes place.  [Q]'s division returns 0 on a zero divisor
    where JavaScript returns an infinity or NaN; the only divisor that is not
    a non-zero constant is [weight * 1000 * genderConstant], so the theorems
    whose content depends on that quotient assume a positive [weight].
    Numeric equality of rationals is [==] ([Qeq]); [=] is used only where the
    two sides are the same term. *)

From Stdlib Require Import PeanoNat.
From Stdlib Require Import QArith Qminmax Lqa List Bool Lia.
From Stdlib Require Import Sorting.Sorted Sorting.Permutation.
Import ListNotations.

Open Scope Q_scope.

(** ** Constants and types *)

Inductive Gender : Type := male | female.

(** [GENDER_CONSTANTS] is an object literal indexed by the gender key. *)
Definition GENDER_CONSTANTS (g : Gender) : Q :=
  match g with
  | male => 0.68
  | female => 0.55
  end.

(** Average rate of alcohol metabolism per hour. *)
Definition METABOLISM_RATE : Q := 0.015.

Module Drink.
Record t : Type := make
  { timestamp : Q;
    volume : Q;
    alcoholPercentage : Q }.
End Drink.

Module DataPoint.
Record t : Type := make
  { timestamp : Q;
    bac : Q;
    isPeak : bool }.
End DataPoint.

(** The comparison [a > b] of the source, as a boolean. *)
Definition gtb (a b : Q) : bool :=
  match b ?= a with
  | Lt => true
  | _ => false
  end.

(** The comparison [a <= b] of the source is [Qle_bool a b]. *)

(** ** [calculateBac] *)

(** One iteration of the [for (const drink of drinks)] loop; [result] is the
    accumulator, and [continue] leaves it as it is. *)
Definition calculateBac_body (gender : Gender) (timestamp weight : Q)
    (result : Q) (drink : Drink.t) : Q :=
  let genderConstant := GENDER_CONSTANTS gender in
  if gtb (Drink.timestamp drink) timestamp then result
  else
    let hoursSinceDrink := (timestamp - Drink.timestamp drink) / (60 * 60 * 1000) in
    let alcoholGrams :=
      Drink.volume drink * (Drink.alcoholPercentage drink / 100) * 0.789 in
    let initialBAC := (alcoholGrams / (weight * 1000 * genderConstant)) * 100 in
    result + Qmax 0 (initialBAC - METABOLISM_RATE * hoursSinceDrink).

Definition calculateBac (drinks : list Drink.t) (gender : Gender)
    (timestamp weight : Q) : Q :=
  fold_left (calculateBac_body gender timestamp weight) drinks 0.

(** ** [calculateChartData] *)

(** The comparator handed to [Array.prototype.sort]. *)
Definition compareFn (a b : Drink.t) : Q :=
  Drink.timestamp a - Drink.timestamp b.

(** [[...drinks].sort(compareFn)].  ECMAScript requires the sort to be stable,
    and [compareFn] is a consistent comparator, so the result is the one
    stable arrangement of the input: each element is placed after the
    elements it does not precede and before the later elements that compare
    equal to it.  It is computed here by insertion from the right. *)
Fixpoint insert (d : Drink.t) (l : list Drink.t) : list Drink.t :=
  match l with
  | [] => [d]
  | x :: r => if gtb (compareFn d x) 0 then x :: insert d r else d :: x :: r
  end.

Fixpoint sort (l : list Drink.t) : list Drink.t :=
  match l with
  | [] => []
  | d :: r => insert d (sort r)
  end.

(** The loop state: the array [result] being pushed to, and [currentBac]. *)
Definition chart_state : Type := (list DataPoint.t * Q)%type.

(** One iteration of [for (const drink of sortedDrinks)].  [result.push(p)]
    is [result ++ [p]]; [sortedDrinks.find] is [List.find]. *)
Definition calculateChartData_body (sortedDrinks : list Drink.t)
    (gender : Gender) (now weight : Q)
    (st : chart_state) (drink : Drink.t) : chart_state :=
  let '(result, currentBac) := st in
  (* point just before the drink at the current level *)
  let result :=
    result ++ [DataPoint.make (Drink.timestamp drink) currentBac false] in
  let genderConstant := GENDER_CONSTANTS gender in
  let alcoholGrams :=
    Drink.volume drink * (Drink.alcoholPercentage drink / 100) * 0.789 in
  let bacIncrease := (alcoholGrams / (weight * 1000 * genderConstant)) * 100 in
  (* point immediately after adding the drink *)
  let currentBac := currentBac + bacIncrease in
  let result :=
    result ++ [DataPoint.make (Drink.timestamp drink) currentBac false] in
  let hoursUntilZero := currentBac / METABOLISM_RATE in
  let timeUntilZero := hoursUntilZero * 60 * 60 * 1000 in
  let zeroTime := Drink.timestamp drink + timeUntilZero in
  match
    find (fun d => gtb (Drink.timestamp d) (Drink.timestamp drink)) sortedDrinks
  with
  | Some nextDrink =>
      let hoursTillNextDrink :=
        (Drink.timestamp nextDrink - Drink.timestamp drink) / (60 * 60 * 1000) in
      (result, Qmax 0 (currentBac - METABOLISM_RATE * hoursTillNextDrink))
  | None =>
      if gtb now (Drink.timestamp drink) then
        let hoursSinceDrink := (now - Drink.timestamp drink) / (60 * 60 * 1000) in
        let currentBac := Qmax 0 (currentBac - METABOLISM_RATE * hoursSinceDrink) in
        let result := result ++ [DataPoint.make now currentBac false] in
        if gtb currentBac 0 then
          (result ++ [DataPoint.make zeroTime 0 false], currentBac)
        else (result, currentBac)
      else (result ++ [DataPoint.make zeroTime 0 false], currentBac)
  end.

Definition calculateChartData (drinks : list Drink.t) (gender : Gender)
    (now weight : Q) : list DataPoint.t :=
  let sortedDrinks := sort drinks in
  match sortedDrinks with
  | [] => []
  | _ :: _ =>
      fst (fold_left (calculateChartData_body sortedDrinks gender now weight)
             sortedDrinks ([], 0))
  end.

(** ** [estimateTimeUntilTarget] *)

Definition estimateTimeUntilTarget (currentBac targetBac : Q) : Q :=
  if Qle_bool currentBac targetBac then 0
  else ((currentBac - targetBac) / METABOLISM_RATE) * 60 * 60 * 1000.

(** ** Sample inputs

    The drink the form proposes (500 ml at 5 %), logged at instant [t]. *)
Definition beer (t : Q) : Drink.t := Drink.make t 500 5.

(** ** Properties of the output that the claims speak about *)

(** Samples are in chronological order: each sample's time is at least the
    time of the sample before it. *)
Definition chronological (l : list DataPoint.t) : Prop :=
  forall i a b,
    nth_error l i = Some a -> nth_error l (S i) = Some b ->
    DataPoint.timestamp a <= DataPoint.timestamp b.

(** Drink [a] is not later than drink [b]: the order the sort establishes. *)
Definition le_ts (a b : Drink.t) : Prop :=
  Drink.timestamp a <= Drink.timestamp b.

(** Sample [a] is not later than sample [b]. *)
Definition le_time (a b : DataPoint.t) : Prop :=
  DataPoint.timestamp a <= DataPoint.timestamp b.

(** No two events of the collection share a timestamp. *)
Fixpoint distinct_timestamps (l : list Drink.t) : Prop :=
  match l with
  | [] => True
  | d :: r =>
      (forall x, In x r -> ~ Drink.timestamp x == Drink.timestamp d)
      /\ distinct_timestamps r
  end.

(** An invariant of the loop of [calculateChartData]: the samples pushed so
    far are in order and none is later than [bound], and the running level
    is not negative. *)
Definition chart_inv (bound : Q) (st : chart_state) : Prop :=
  StronglySorted le_time (fst st)
  /\ (forall s, In s (fst st) -> DataPoint.timestamp s <= bound)
  /\ 0 <= snd st.

(** ** The route component [Home]

    The component keeps [drinks], [settings], [newDrink] and [currentTime] in
    React state; its handlers and memoised values are embedded as functions
    from the state they read to the value they compute or the state they
    set.  Toasts, dialogs, local storage and date formatting are left out. *)

Module UserSettings.
Record t : Type := make
  { gender : Gender;
    weight : Q;
    bacLimit : Q }.
End UserSettings.

Definition DEFAULT_SETTINGS : UserSettings.t :=
  UserSettings.make male 75 0.05.

(** [Partial<Drink>]: the form state [newDrink], each key present or not. *)
Module PartialDrink.
Record t : Type := make
  { timestamp : option Q;
    volume : option Q;
    alcoholPercentage : option Q }.
End PartialDrink.

(** [handleAddDrink]: the guard [newDrink.alcoholPercentage &&
    newDrink.volume] holds when both keys are present and not zero; the new
    log is then [[...drinks, drink]] with [drink] stamped [currentTime]. *)
Definition handleAddDrink (drinks : list Drink.t) (newDrink : PartialDrink.t)
    (currentTime : Q) : list Drink.t :=
  match PartialDrink.alcoholPercentage newDrink, PartialDrink.volume newDrink with
  | Some alcoholPercentage, Some volume =>
      if negb (Qeq_bool alcoholPercentage 0) && negb (Qeq_bool volume 0) then
        drinks ++ [Drink.make currentTime volume alcoholPercentage]
      else drinks
  | _, _ => drinks
  end.

(** [Array.prototype.filter] with a callback that also receives the index;
    [i] is the index of the head of [l]. *)
Fixpoint filter_index {A : Type} (f : A -> nat -> bool) (l : list A) (i : nat)
    : list A :=
  match l with
  | [] => []
  | x :: r => if f x i then x :: filter_index f r (S i) else filter_index f r (S i)
  end.

(** [handleDeleteDrink]: the new log is
    [drinks.filter((_, drinkIndex) => drinkIndex !== index)]. *)
Definition handleDeleteDrink (drinks : list Drink.t) (index : nat)
    : list Drink.t :=
  filter_index (fun _ drinkIndex => negb (Nat.eqb drinkIndex index)) drinks 0.

(** The effect "check if user is sober and clear drinks if needed":
    [if (bac <= 0 && drinks.length > 0) setDrinks([])]. *)
Definition clearWhenSober (bac : Q) (drinks : list Drink.t) : list Drink.t :=
  if Qle_bool bac 0 && Nat.ltb 0 (length drinks) then [] else drinks.

(** The memoised derived values, before they are formatted for display. *)
Module Derived.
Record t : Type := make
  { isOverLimit : bool;
    timeUntilSober : Q;
    timeUntilLegal : Q;
    soberTime : Q;
    legalTime : Q }.
End Derived.

Definition derivedValues (bac bacLimit currentTime : Q) : Derived.t :=
  let isOverLimit := gtb bac bacLimit in
  let timeUntilSoberUnformatted := estimateTimeUntilTarget bac 0 in
  let timeUntilLegalUnformatted := estimateTimeUntilTarget bac bacLimit in
  Derived.make isOverLimit
    timeUntilSoberUnformatted
    timeUntilLegalUnformatted
    (currentTime + timeUntilSoberUnformatted)
    (currentTime + timeUntilLegalUnformatted).

(** [chartData.at(-1)]. *)
Fixpoint at_last {A : Type} (l : list A) : option A :=
  match l with
  | [] => None
  | [x] => Some x
  | _ :: r => at_last r
  end.

(** [chartDomain]: half an hour around the current time for an empty log,
    otherwise from five minutes before the first sample (or the current
    time, whichever is earlier) to five minutes after the last sample (or
    the current time, whichever is later).  [x?.timestamp ?? currentTime]
    is [currentTime] when the sample is missing. *)
Definition chartDomain (drinks : list Drink.t) (chartData : list DataPoint.t)
    (currentTime : Q) : Q * Q :=
  match drinks with
  | [] => (currentTime - 30 * 60 * 1000, currentTime + 30 * 60 * 1000)
  | _ :: _ =>
      (Qmin (match nth_error chartData 0 with
             | Some s => DataPoint.timestamp s
             | None => currentTime
             end) currentTime
       - 5 * 60 * 1000,
       Qmax (match at_last chartData with
             | Some s => DataPoint.timestamp s
             | None => currentTime
             end) currentTime
       + 5 * 60 * 1000)
  end.

(** The [ticks] of the time axis:
    [Array.from({ length: tickCount }, (_, index) => domainStart + interval * index)]. *)
Definition ticks (chartDomain : Q * Q) : list Q :=
  let '(domainStart, domainEnd) := chartDomain in
  let duration := domainEnd - domainStart in
  let tickCount := 6%nat in
  let interval := duration / (inject_Z (Z.of_nat tickCount) - 1) in
  map (fun index => domainStart + interval * inject_Z (Z.of_nat index))
      (seq 0 tickCount).

(** ** Names for quantities the loops compute *)

(** The local constant [initialBAC] of [calculateBac], which is also the
    [bacIncrease] of [calculateChartData]: the Widmark peak of one drink. *)
Definition initialBAC (gender : Gender) (weight : Q) (drink : Drink.t) : Q :=
  (Drink.volume drink * (Drink.alcoholPercentage drink / 100) * 0.789)
    / (weight * 1000 * GENDER_CONSTANTS gender) * 100.

(** What one drink adds to the sum of [calculateBac] at query time
    [timestamp]: nothing when the drink is later, otherwise its peak less
    the metabolised part, floored at 0. *)
Definition contribution (gender : Gender) (timestamp weight : Q)
    (drink : Drink.t) : Q :=
  calculateBac_body gender timestamp weight 0 drink.

(** * Basic facts *)

Lemma gtb_true (a b : Q) : gtb a b = true <-> b < a.
Proof.
  unfold gtb. rewrite Qlt_alt. destruct (b ?= a); split; congruence.
Qed.

Lemma gtb_false (a b : Q) : gtb a b = false <-> a <= b.
Proof.
  rewrite <- not_true_iff_false, gtb_true. split.
  - apply Qnot_lt_le.
  - apply Qle_not_lt.
Qed.

Lemma div_hour (x : Q) : x / (60 * 60 * 1000) == x * (1 # 3600000).
Proof. field. Qed.

Lemma div_rate (x : Q) : x / METABOLISM_RATE == x * (1000 # 15).
Proof. unfold METABOLISM_RATE. field. Qed.

Lemma Qmax_0_nonneg (x : Q) : 0 <= Qmax 0 x.
Proof. apply Q.le_max_l. Qed.

(** The rise in level caused by one drink, as both functions compute it. *)
Lemma bacIncrease_nonneg (v p w : Q) (g : Gender) :
  0 <= v -> 0 <= p -> 0 < w ->
  0 <= (v * (p / 100) * 0.789) / (w * 1000 * GENDER_CONSTANTS g) * 100.
Proof.
  intros Hv Hp Hw.
  assert (Hg : 0 < GENDER_CONSTANTS g) by (destruct g; reflexivity).
  apply Qmult_le_0_compat; [|discriminate].
  apply Qle_shift_div_l.
  - apply Qmult_lt_0_compat; [|exact Hg].
    apply Qmult_lt_0_compat; [exact Hw|reflexivity].
  - rewrite Qmult_0_l.
    apply Qmult_le_0_compat; [|discriminate].
    apply Qmult_le_0_compat; [exact Hv|].
    apply Qle_shift_div_l; [reflexivity|]. lra.
Qed.

(** * [calculateBac] *)

Section Evaluator.

Variables (gender : Gender) (weight : Q).

Lemma calculateBac_body_skip (t acc : Q) (d : Drink.t) :
  t < Drink.timestamp d -> calculateBac_body gender t weight acc d = acc.
Proof.
  intros H. unfold calculateBac_body.
  apply gtb_true in H. now rewrite H.
Qed.

Lemma calculateBac_body_ge (t acc : Q) (d : Drink.t) :
  acc <= calculateBac_body gender t weight acc d.
Proof.
  unfold calculateBac_body.
  destruct (gtb (Drink.timestamp d) t); [apply Qle_refl|].
  cbv zeta.
  set (x := _ - _). pose proof (Qmax_0_nonneg x). lra.
Qed.

Lemma fold_calculateBac_skip (t : Q) (drinks : list Drink.t) :
  (forall d, In d drinks -> t < Drink.timestamp d) ->
  forall acc, fold_left (calculateBac_body gender t weight) drinks acc = acc.
Proof.
  induction drinks as [|d r IH]; intros H acc; simpl; [reflexivity|].
  rewrite calculateBac_body_skip by (apply H; now left).
  apply IH. intros d' Hd'. apply H. now right.
Qed.

Lemma fold_calculateBac_ge (t : Q) (drinks : list Drink.t) :
  forall acc, acc <= fold_left (calculateBac_body gender t weight) drinks acc.
Proof.
  induction drinks as [|d r IH]; intros acc; simpl; [apply Qle_refl|].
  eapply Qle_trans; [apply (calculateBac_body_ge t acc d)|apply IH].
Qed.

(** Between two query times that no event separates, one iteration at the
    later time adds no more than the same iteration at the earlier time. *)
Lemma calculateBac_body_antitone (t1 t2 a1 a2 : Q) (d : Drink.t) :
  t1 <= t2 ->
  ~ (t1 < Drink.timestamp d /\ Drink.timestamp d <= t2) ->
  a2 <= a1 ->
  calculateBac_body gender t2 weight a2 d
  <= calculateBac_body gender t1 weight a1 d.
Proof.
  intros Ht Hd Ha. unfold calculateBac_body.
  destruct (gtb (Drink.timestamp d) t2) eqn:E2.
  - apply gtb_true in E2.
    assert (E1 : gtb (Drink.timestamp d) t1 = true) by (apply gtb_true; lra).
    now rewrite E1.
  - apply gtb_false in E2.
    assert (E1 : gtb (Drink.timestamp d) t1 = false).
    { apply gtb_false. destruct (Qlt_le_dec t1 (Drink.timestamp d)); [|assumption].
      exfalso. apply Hd. now split. }
    rewrite E1. cbv zeta.
    set (p := _ / _ * 100).
    apply Qplus_le_compat; [exact Ha|].
    apply Q.max_le_compat_l.
    rewrite !div_hour. unfold METABOLISM_RATE. lra.
Qed.

Lemma fold_calculateBac_antitone (t1 t2 : Q) (drinks : list Drink.t) :
  t1 <= t2 ->
  (forall d, In d drinks ->
             ~ (t1 < Drink.timestamp d /\ Drink.timestamp d <= t2)) ->
  forall a1 a2, a2 <= a1 ->
  fold_left (calculateBac_body gender t2 weight) drinks a2
  <= fold_left (calculateBac_body gender t1 weight) drinks a1.
Proof.
  intros Ht. induction drinks as [|d r IH]; intros H a1 a2 Ha; simpl.
  - exact Ha.
  - apply IH.
    + intros d' Hd'. apply H. now right.
    + apply calculateBac_body_antitone; auto. apply H. now left.
Qed.

(** A single drink queried at a time not before it. *)
Lemma calculateBac_single (d : Drink.t) (t : Q) :
  Drink.timestamp d <= t ->
  calculateBac [d] gender t weight
  == Qmax 0
       ((Drink.volume d * (Drink.alcoholPercentage d / 100) * 0.789)
          / (weight * 1000 * GENDER_CONSTANTS gender) * 100
        - METABOLISM_RATE * ((t - Drink.timestamp d) / (60 * 60 * 1000))).
Proof.
  intros H. unfold calculateBac. simpl. unfold calculateBac_body.
  apply gtb_false in H. rewrite H. cbv zeta. apply Qplus_0_l.
Qed.

End Evaluator.

(** C4. A single drink evaluated at its own timestamp, for a positive weight
    (and the non-negative volume and strength every logged drink has), yields
    exactly the Widmark peak
    [(volume * (percentage / 100) * 0.789) / (weight * 1000 * ratio) * 100],
    with ratio 0.68 for male and 0.55 for female; for 500 ml at 5 %, male,
    75 kg this is 0.0387 to four decimal places. *)
Theorem calculateBac_at_own_timestamp (d : Drink.t) (gender : Gender) (weight : Q) :
  0 <= Drink.volume d -> 0 <= Drink.alcoholPercentage d -> 0 < weight ->
  calculateBac [d] gender (Drink.timestamp d) weight
  == (Drink.volume d * (Drink.alcoholPercentage d / 100) * 0.789)
       / (weight * 1000 * GENDER_CONSTANTS gender) * 100
  /\ GENDER_CONSTANTS male = 0.68
  /\ GENDER_CONSTANTS female = 0.55
  /\ (forall T : Q,
        0.03865 < calculateBac [beer T] male T 75
        /\ calculateBac [beer T] male T 75 < 0.03875).
Proof.
  intros Hv Hp Hw.
  assert (single : forall d' g w, 0 <= Drink.volume d' ->
            0 <= Drink.alcoholPercentage d' -> 0 < w ->
            calculateBac [d'] g (Drink.timestamp d') w
            == (Drink.volume d' * (Drink.alcoholPercentage d' / 100) * 0.789)
                 / (w * 1000 * GENDER_CONSTANTS g) * 100).
  { intros d' g w Hv' Hp' Hw'.
    rewrite calculateBac_single by apply Qle_refl.
    pose proof (bacIncrease_nonneg _ _ _ g Hv' Hp' Hw') as Hpos.
    set (p := _ / _ * 100) in *.
    rewrite Q.max_r.
    - rewrite div_hour. unfold METABOLISM_RATE. ring.
    - rewrite div_hour. unfold METABOLISM_RATE. lra. }
  split; [now apply single|].
  split; [reflexivity|]. split; [reflexivity|].
  intros T.
  assert (E : calculateBac [beer T] male T 75 == 263 # 6800).
  { rewrite (single (beer T) male 75); [reflexivity| | |]; simpl; lra. }
  rewrite E. split; reflexivity.
Qed.

Lemma calculateBac_at_own_timestamp_witness :
  calculateBac [beer 1000] female 1000 60
  == (500 * (5 / 100) * 0.789) / (60 * 1000 * 0.55) * 100.
Proof.
  apply (calculateBac_at_own_timestamp (beer 1000) female 60);
    simpl; lra.
Defined.

(** C6. [calculateBac] returns 0 on the empty collection, and on every
    collection all of whose events lie strictly after the query time. *)
Theorem calculateBac_zero_before_events
    (drinks : list Drink.t) (gender : Gender) (t weight : Q) :
  calculateBac [] gender t weight = 0
  /\ ((forall d, In d drinks -> t < Drink.timestamp d) ->
      calculateBac drinks gender t weight = 0).
Proof.
  split; [reflexivity|].
  intros H. unfold calculateBac. now apply fold_calculateBac_skip.
Qed.

Lemma calculateBac_zero_before_events_witness :
  calculateBac [beer 20; beer 30] male 10 75 = 0.
Proof.
  apply (calculateBac_zero_before_events [beer 20; beer 30] male 10 75).
  intros d [<-|[<-|[]]]; reflexivity.
Defined.

(** C7. Between two query times [t1 <= t2] with no event in [(t1, t2]],
    [calculateBac] does not increase. *)
Theorem calculateBac_nonincreasing
    (drinks : list Drink.t) (gender : Gender) (weight t1 t2 : Q) :
  0 < weight ->
  t1 <= t2 ->
  (forall d, In d drinks ->
             ~ (t1 < Drink.timestamp d /\ Drink.timestamp d <= t2)) ->
  calculateBac drinks gender t2 weight <= calculateBac drinks gender t1 weight.
Proof.
  intros _ Ht H. unfold calculateBac.
  apply fold_calculateBac_antitone; auto. apply Qle_refl.
Qed.

Lemma calculateBac_nonincreasing_witness :
  calculateBac [beer 0; beer 3600000] male 9000000 75
  <= calculateBac [beer 0; beer 3600000] male 7200000 75.
Proof.
  apply (calculateBac_nonincreasing [beer 0; beer 3600000] male 75
           7200000 9000000).
  - reflexivity.
  - discriminate.
  - intros d [<-|[<-|[]]] [H _]; revert H; simpl; lra.
Defined.

(** C8. With non-negative volumes and strengths and a positive weight,
    [calculateBac] is never negative: every iteration adds a contribution
    floored at 0, so the running sum never decreases. *)
Theorem calculateBac_nonneg
    (drinks : list Drink.t) (gender : Gender) (t weight : Q) :
  (forall d, In d drinks ->
             0 <= Drink.volume d /\ 0 <= Drink.alcoholPercentage d) ->
  0 < weight ->
  0 <= calculateBac drinks gender t weight
  /\ (forall acc d, acc <= calculateBac_body gender t weight acc d).
Proof.
  intros _ _. split.
  - apply fold_calculateBac_ge.
  - intros acc d. apply calculateBac_body_ge.
Qed.

Lemma calculateBac_nonneg_witness :
  0 <= calculateBac [beer 0; beer 3600000] male 7200000 75.
Proof.
  apply (calculateBac_nonneg [beer 0; beer 3600000] male 7200000 75).
  - intros d [<-|[<-|[]]]; split; discriminate.
  - reflexivity.
Defined.

(** * [estimateTimeUntilTarget] *)



(** * The sort *)

Lemma insert_perm (d : Drink.t) (l : list Drink.t) :
  Permutation (insert d l) (d :: l).
Proof.
  induction l as [|x r IH]; simpl; [reflexivity|].
  destruct (gtb (compareFn d x) 0); [|reflexivity].
  rewrite IH. apply perm_swap.
Qed.

Lemma sort_perm (l : list Drink.t) : Permutation (sort l) l.
Proof.
  induction l as [|d r IH]; simpl; [reflexivity|].
  rewrite insert_perm. now constructor.
Qed.

Lemma le_ts_trans (a b c : Drink.t) : le_ts a b -> le_ts b c -> le_ts a c.
Proof. unfold le_ts. apply Qle_trans. Qed.

Lemma insert_sorted (d : Drink.t) (l : list Drink.t) :
  StronglySorted le_ts l -> StronglySorted le_ts (insert d l).
Proof.
  induction 1 as [|x r Hr IH Hx]; simpl.
  - repeat constructor.
  - destruct (gtb (compareFn d x) 0) eqn:E.
    + apply gtb_true in E. unfold compareFn in E.
      constructor; [exact IH|].
      rewrite insert_perm. constructor; [|exact Hx].
      unfold le_ts. lra.
    + apply gtb_false in E. unfold compareFn in E.
      assert (Hdx : le_ts d x) by (unfold le_ts; lra).
      constructor; [now constructor|].
      constructor; [exact Hdx|].
      eapply Forall_impl; [|exact Hx].
      intros y Hy. now apply le_ts_trans with x.
Qed.

Lemma sort_sorted (l : list Drink.t) : StronglySorted le_ts (sort l).
Proof.
  induction l as [|d r IH]; simpl; [constructor|now apply insert_sorted].
Qed.

(** An ascending arrangement is unique as soon as events that share a
    timestamp are the same event. *)
Lemma sorted_perm_unique (l1 : list Drink.t) :
  forall l2,
    StronglySorted le_ts l1 -> StronglySorted le_ts l2 ->
    Permutation l1 l2 ->
    (forall a b, In a l1 -> In b l1 ->
                 Drink.timestamp a == Drink.timestamp b -> a = b) ->
    l1 = l2.
Proof.
  induction l1 as [|a r1 IH]; intros l2 S1 S2 P U.
  - now apply Permutation_nil in P.
  - destruct l2 as [|b r2].
    { symmetry in P. now apply Permutation_nil in P. }
    apply StronglySorted_inv in S1. destruct S1 as [S1 F1].
    apply StronglySorted_inv in S2. destruct S2 as [S2 F2].
    rewrite Forall_forall in F1, F2.
    assert (Hb : In b (a :: r1)).
    { apply Permutation_in with (b :: r2); [now symmetry|now left]. }
    assert (Ha : In a (b :: r2)).
    { apply Permutation_in with (a :: r1); [exact P|now left]. }
    assert (Hab : le_ts a b).
    { destruct Hb as [<-|Hb]; [apply Qle_refl|now apply F1]. }
    assert (Hba : le_ts b a).
    { destruct Ha as [<-|Ha]; [apply Qle_refl|now apply F2]. }
    assert (E : a = b).
    { apply U; [now left|exact Hb|]. now apply Qle_antisym. }
    subst b. f_equal.
    apply IH; auto.
    + now apply Permutation_cons_inv in P.
    + intros x y Hx Hy. apply U; now right.
Qed.

(** The last element of an ascending list has the largest timestamp, so
    [find] meets no later drink. *)
Lemma sorted_last_max (l : list Drink.t) (x : Drink.t) :
  StronglySorted le_ts (l ++ [x]) ->
  forall y, In y (l ++ [x]) -> le_ts y x.
Proof.
  induction l as [|a r IH]; simpl; intros S y Hy.
  - destruct Hy as [<-|[]]. apply Qle_refl.
  - apply StronglySorted_inv in S. destruct S as [S F].
    destruct Hy as [<-|Hy]; [|now apply IH].
    rewrite Forall_forall in F. apply F.
    apply in_or_app. right. now left.
Qed.

Lemma find_later_none (l : list Drink.t) (x : Drink.t) :
  (forall y, In y l -> le_ts y x) ->
  find (fun d => gtb (Drink.timestamp d) (Drink.timestamp x)) l = None.
Proof.
  induction l as [|a r IH]; simpl; intros H; [reflexivity|].
  assert (E : gtb (Drink.timestamp a) (Drink.timestamp x) = false).
  { apply gtb_false. apply H. now left. }
  rewrite E. apply IH. intros y Hy. apply H. now right.
Qed.

Lemma find_later_some (l : list Drink.t) (x y : Drink.t) :
  In y l -> Drink.timestamp x < Drink.timestamp y ->
  exists n, find (fun d => gtb (Drink.timestamp d) (Drink.timestamp x)) l = Some n
            /\ Drink.timestamp x < Drink.timestamp n.
Proof.
  intros Hy Hlt.
  destruct (find _ l) as [n|] eqn:E.
  - exists n. split; [reflexivity|].
    apply find_some in E. destruct E as [_ E]. now apply gtb_true in E.
  - exfalso. apply (find_none _ _ E) in Hy.
    apply gtb_false in Hy. lra.
Qed.

(** * [calculateChartData] *)

(** Case analysis of one loop iteration: the three branches on
    [nextDrink], [now > drink.timestamp] and [currentBac > 0]. *)
Ltac body_cases :=
  unfold calculateChartData_body; cbv zeta;
  match goal with
  | |- context [find ?p ?l] =>
      let E := fresh "Enext" in
      destruct (find p l) eqn:E;
      [ | match goal with
          | |- context [gtb ?n ?t] =>
              let En := fresh "Enow" in
              destruct (gtb n t) eqn:En;
              [ match goal with
                | |- context [gtb ?c 0] =>
                    let Ec := fresh "Epos" in destruct (gtb c 0) eqn:Ec
                end | ]
          end ]
  end.

Section Synthesizer.

Variables (sortedDrinks : list Drink.t) (gender : Gender) (now weight : Q).

Let body := calculateChartData_body sortedDrinks gender now weight.

(** A property of the loop state that every iteration preserves holds
    when the loop ends. *)
Lemma chart_loop_invariant (P : chart_state -> Prop) (l : list Drink.t) :
  (forall st d, In d l -> P st -> P (body st d)) ->
  forall st, P st -> P (fold_left body l st).
Proof.
  induction l as [|d r IH]; intros Hstep st Hst; simpl; [exact Hst|].
  apply IH.
  - intros st' d' Hd'. apply Hstep. now right.
  - apply Hstep; [now left|exact Hst].
Qed.

Lemma body_isPeak (st : chart_state) (d : Drink.t) :
  Forall (fun s => DataPoint.isPeak s = false) (fst st) ->
  Forall (fun s => DataPoint.isPeak s = false) (fst (body st d)).
Proof.
  destruct st as [res cur]. simpl. intros H. unfold body.
  body_cases; simpl; rewrite ?Forall_app; repeat split;
    try assumption; repeat constructor.
Qed.


End Synthesizer.

(** C10. Every sample [calculateChartData] returns has [isPeak = false]. *)
Theorem calculateChartData_isPeak_false
    (drinks : list Drink.t) (gender : Gender) (now weight : Q) :
  Forall (fun s => DataPoint.isPeak s = false)
         (calculateChartData drinks gender now weight).
Proof.
  unfold calculateChartData. cbv zeta.
  destruct (sort drinks) as [|d r] eqn:E; [constructor|].
  apply (chart_loop_invariant (d :: r) gender now weight
           (fun st => Forall (fun s => DataPoint.isPeak s = false) (fst st))).
  - intros st x _. apply body_isPeak.
  - constructor.
Qed.



(** ** Order of the input *)

(** C2, as amended.  Two collections that are permutations of each other,
    and in which events sharing a timestamp are identical in every field,
    give the same output: the same samples in the same order. *)
Theorem calculateChartData_permutation
    (l1 l2 : list Drink.t) (gender : Gender) (now weight : Q) :
  Permutation l1 l2 ->
  (forall a b, In a l1 -> In b l1 ->
               Drink.timestamp a == Drink.timestamp b -> a = b) ->
  calculateChartData l1 gender now weight
  = calculateChartData l2 gender now weight.
Proof.
  intros P U.
  assert (E : sort l1 = sort l2).
  { apply sorted_perm_unique; try apply sort_sorted.
    - rewrite !sort_perm. exact P.
    - intros a b Ha Hb. apply U; eapply Permutation_in; eauto using sort_perm. }
  unfold calculateChartData. now rewrite E.
Qed.

Lemma calculateChartData_permutation_witness :
  calculateChartData [beer 3600000; beer 0] male 7200000 75
  = calculateChartData [beer 0; beer 3600000] male 7200000 75.
Proof.
  apply (calculateChartData_permutation
           [beer 3600000; beer 0] [beer 0; beer 3600000] male 7200000 75).
  - apply perm_swap.
  - intros a b [<-|[<-|[]]] [<-|[<-|[]]] H;
      first [reflexivity | discriminate H].
Defined.

(** C2 as stated fails: the sort compares timestamps only and is stable, so
    two drinks logged at the same instant stay in input order, and the
    second sample carries the rise of whichever came first. *)
Lemma calculateChartData_permutation_counterexample :
  let a := Drink.make 0 500 5 in
  let b := Drink.make 0 330 5 in
  Permutation [a; b] [b; a]
  /\ calculateChartData [a; b] male 60000 75
     <> calculateChartData [b; a] male 60000 75
  /\ exists s1 s2,
       nth_error (calculateChartData [a; b] male 60000 75) 1 = Some s1
       /\ nth_error (calculateChartData [b; a] male 60000 75) 1 = Some s2
       /\ ~ DataPoint.bac s1 == DataPoint.bac s2.
Proof.
  cbv zeta. split; [apply perm_swap|]. split.
  - intros H. apply (f_equal (fun l => nth_error l 1)) in H.
    vm_compute in H. discriminate H.
  - eexists _, _. split; [reflexivity|]. split; [reflexivity|].
    vm_compute. discriminate.
Qed.

(** ** Agreement with [calculateBac] *)

(** The output for a single drink that lies before [now]. *)
Lemma calculateChartData_single (d : Drink.t) (gender : Gender) (now weight : Q) :
  Drink.timestamp d < now ->
  let bacIncrease :=
    (Drink.volume d * (Drink.alcoholPercentage d / 100) * 0.789)
      / (weight * 1000 * GENDER_CONSTANTS gender) * 100 in
  let level :=
    Qmax 0 (0 + bacIncrease
            - METABOLISM_RATE * ((now - Drink.timestamp d) / (60 * 60 * 1000))) in
  let zeroTime :=
    Drink.timestamp d + (0 + bacIncrease) / METABOLISM_RATE * 60 * 60 * 1000 in
  calculateChartData [d] gender now weight
  = [DataPoint.make (Drink.timestamp d) 0 false;
     DataPoint.make (Drink.timestamp d) (0 + bacIncrease) false;
     DataPoint.make now level false]
    ++ (if gtb level 0 then [DataPoint.make zeroTime 0 false] else []).
Proof.
  intros Hlt. cbv zeta.
  unfold calculateChartData. simpl. unfold calculateChartData_body. simpl.
  assert (E1 : gtb (Drink.timestamp d) (Drink.timestamp d) = false)
    by (apply gtb_false, Qle_refl).
  assert (E2 : gtb now (Drink.timestamp d) = true) by now apply gtb_true.
  rewrite E1, E2.
  destruct (gtb _ 0); reflexivity.
Qed.




(** ** Chronological order *)

(** C1.  The samples are not always in chronological order: when two drinks
    share the latest timestamp, the first of them finds no later drink, so
    the loop emits the closing samples at [now] and [zeroTime] for it and
    then goes back to the shared timestamp for the second.  Two drinks at
    instant 0 seen at 60000 give the times
    0, 0, 60000, 9282352.9, 0, 0, 60000, 18504705.9. *)
Theorem calculateChartData_not_chronological :
  Forall2 Qeq
    (map DataPoint.timestamp
         (calculateChartData [beer 0; beer 0] male 60000 75))
    [0; 0; 60000; 157800000 # 17; 0; 0; 60000; 314580000 # 17]
  /\ ~ chronological (calculateChartData [beer 0; beer 0] male 60000 75).
Proof.
  split.
  - vm_compute. repeat constructor.
  - intros H.
    pose proof (H 3%nat _ _ eq_refl eq_refl) as K.
    vm_compute in K. now apply K.
Qed.

(** ** Chronological order when timestamps are distinct *)

Lemma distinct_timestamps_perm (l1 l2 : list Drink.t) :
  Permutation l1 l2 -> distinct_timestamps l1 -> distinct_timestamps l2.
Proof.
  induction 1 as [|d r1 r2 P IH|a b r|l1 l2 l3 P1 IH1 P2 IH2]; simpl.
  - trivial.
  - intros [H1 H2]. split; [|now apply IH].
    intros x Hx. apply H1. apply Permutation_in with r2; [now symmetry|exact Hx].
  - intros [Hb [Ha Hr]]. split; [|split; [|exact Hr]].
    + intros x [<-|Hx]; [|now apply Ha].
      intros E. apply (Hb a); [now left|now symmetry].
    + intros x Hx. apply Hb. now right.
  - auto.
Qed.

Lemma distinct_timestamps_last (l : list Drink.t) (x : Drink.t) :
  distinct_timestamps (l ++ [x]) ->
  forall d, In d l -> ~ Drink.timestamp d == Drink.timestamp x.
Proof.
  induction l as [|a r IH]; simpl; intros [H1 H2] d Hd; [contradiction|].
  destruct Hd as [<-|Hd]; [|now apply IH].
  intros E. apply (H1 x); [|now symmetry].
  apply in_or_app. right. now left.
Qed.

Lemma StronglySorted_app {A : Type} (R : A -> A -> Prop) (l1 l2 : list A) :
  StronglySorted R l1 -> StronglySorted R l2 ->
  (forall a b, In a l1 -> In b l2 -> R a b) ->
  StronglySorted R (l1 ++ l2).
Proof.
  induction 1 as [|x r Hr IH Hx]; simpl; intros S2 H; [exact S2|].
  constructor.
  - apply IH; [exact S2|]. intros a b Ha. apply H. now right.
  - apply Forall_app. split; [exact Hx|].
    apply Forall_forall. intros b Hb. apply H; [now left|exact Hb].
Qed.

Lemma StronglySorted_chronological (l : list DataPoint.t) :
  StronglySorted le_time l -> chronological l.
Proof.
  induction 1 as [|x r Hr IH Hx]; intros i a b Ha Hb.
  - destruct i; discriminate.
  - destruct i as [|i]; simpl in Ha, Hb.
    + injection Ha as <-. rewrite Forall_forall in Hx. apply Hx.
      destruct r; [discriminate|]. injection Hb as <-. now left.
    + exact (IH i a b Ha Hb).
Qed.

Section Chronology.

Variables (sortedDrinks : list Drink.t) (gender : Gender) (now weight : Q).

Let body := calculateChartData_body sortedDrinks gender now weight.

Lemma chart_inv_weaken (b1 b2 : Q) (st : chart_state) :
  b1 <= b2 -> chart_inv b1 st -> chart_inv b2 st.
Proof.
  intros Hb (H1 & H2 & H3). repeat split; auto.
  intros s Hs. apply Qle_trans with b1; auto.
Qed.

(** An iteration for a drink that has a strictly later drink pushes the two
    samples at the drink's own timestamp and nothing else. *)
Lemma body_inv_next (bound : Q) (st : chart_state) (d n : Drink.t) :
  find (fun x => gtb (Drink.timestamp x) (Drink.timestamp d)) sortedDrinks
  = Some n ->
  bound <= Drink.timestamp d ->
  chart_inv bound st ->
  chart_inv (Drink.timestamp d) (body st d).
Proof.
  destruct st as [res cur]. intros Hn Hb (H1 & H2 & H3). simpl in *.
  unfold body, calculateChartData_body. cbv zeta. rewrite Hn.
  set (p := _ / _ * 100). unfold chart_inv. simpl.
  rewrite <- app_assoc. simpl.
  split; [|split].
  - apply StronglySorted_app; [exact H1|repeat constructor; apply Qle_refl|].
    intros a b Ha [<-|[<-|[]]]; unfold le_time; simpl;
      apply Qle_trans with bound; auto.
  - intros s Hs. apply in_app_or in Hs.
    destruct Hs as [Hs|[<-|[<-|[]]]]; simpl; try apply Qle_refl.
    apply Qle_trans with bound; auto.
  - apply Qmax_0_nonneg.
Qed.

(** The iteration for a drink without a later drink, which also pushes the
    closing samples. *)
Lemma body_inv_last (bound : Q) (st : chart_state) (d : Drink.t) :
  find (fun x => gtb (Drink.timestamp x) (Drink.timestamp d)) sortedDrinks
  = None ->
  bound <= Drink.timestamp d ->
  0 <= (Drink.volume d * (Drink.alcoholPercentage d / 100) * 0.789)
         / (weight * 1000 * GENDER_CONSTANTS gender) * 100 ->
  chart_inv bound st ->
  StronglySorted le_time (fst (body st d)).
Proof.
  destruct st as [res cur]. intros Hn Hb Hp (H1 & H2 & H3). simpl in *.
  unfold body, calculateChartData_body. cbv zeta. rewrite Hn.
  set (p := _ / _ * 100) in *.
  set (h := (now - Drink.timestamp d) / (60 * 60 * 1000)).
  set (z := Drink.timestamp d + (cur + p) / METABOLISM_RATE * 60 * 60 * 1000).
  assert (Hz : Drink.timestamp d <= z).
  { subst z. rewrite div_rate. lra. }
  assert (Hres : forall a, In a res ->
                   DataPoint.timestamp a <= Drink.timestamp d).
  { intros a Ha. apply Qle_trans with bound; auto. }
  destruct (gtb now (Drink.timestamp d)) eqn:Enow.
  - apply gtb_true in Enow.
    destruct (gtb (Qmax 0 (cur + p - METABOLISM_RATE * h)) 0) eqn:Epos;
      simpl; rewrite <- !app_assoc; simpl.
    + apply gtb_true in Epos.
      assert (Hnz : now <= z).
      { destruct (Q.max_spec 0 (cur + p - METABOLISM_RATE * h)) as [[Hx E]|[Hx E]];
          rewrite E in Epos; [|lra].
        subst z h. rewrite div_rate. rewrite div_hour in Hx.
        unfold METABOLISM_RATE in Hx. lra. }
      apply StronglySorted_app; [exact H1| |].
      * repeat constructor; unfold le_time; simpl; lra.
      * intros a b Ha [<-|[<-|[<-|[<-|[]]]]]; unfold le_time; simpl;
          specialize (Hres a Ha); lra.
    + apply StronglySorted_app; [exact H1| |].
      * repeat constructor; unfold le_time; simpl; lra.
      * intros a b Ha [<-|[<-|[<-|[]]]]; unfold le_time; simpl;
          specialize (Hres a Ha); lra.
  - simpl; rewrite <- !app_assoc; simpl.
    apply StronglySorted_app; [exact H1| |].
    + repeat constructor; unfold le_time; simpl; lra.
    + intros a b Ha [<-|[<-|[<-|[]]]]; unfold le_time; simpl;
        specialize (Hres a Ha); lra.
Qed.

(** The iterations before the last one. *)
Lemma fold_inv_prefix (l : list Drink.t) :
  StronglySorted le_ts l ->
  (forall d, In d l ->
     exists n, find (fun x => gtb (Drink.timestamp x) (Drink.timestamp d))
                    sortedDrinks = Some n) ->
  forall (lower upper : Q) (st : chart_state),
    lower <= upper ->
    (forall d, In d l ->
       lower <= Drink.timestamp d /\ Drink.timestamp d <= upper) ->
    chart_inv lower st ->
    chart_inv upper (fold_left body l st).
Proof.
  induction 1 as [|d r Hr IH Hd]; intros Hnext lower upper st Hlu Hb Hst; simpl.
  - now apply chart_inv_weaken with lower.
  - destruct (Hnext d) as [n Hn]; [now left|].
    destruct (Hb d) as [Hld Hdu]; [now left|].
    apply IH with (lower := Drink.timestamp d).
    + intros x Hx. apply Hnext. now right.
    + exact Hdu.
    + intros x Hx. split.
      * rewrite Forall_forall in Hd. now apply Hd.
      * apply Hb. now right.
    + now apply body_inv_next with lower n.
Qed.

End Chronology.

(** Where no two events share a timestamp (and volumes, strengths and the
    weight are as the data model has them), every drink but the last finds
    its successor and the samples are in chronological order. *)
Theorem calculateChartData_chronological_distinct
    (drinks : list Drink.t) (gender : Gender) (now weight : Q) :
  distinct_timestamps drinks ->
  (forall d, In d drinks ->
             0 <= Drink.volume d /\ 0 <= Drink.alcoholPercentage d) ->
  0 < weight ->
  chronological (calculateChartData drinks gender now weight).
Proof.
  intros Hdist Hdata Hw. apply StronglySorted_chronological.
  unfold calculateChartData. cbv zeta.
  pose proof (sort_sorted drinks) as Hsorted.
  pose proof (sort_perm drinks) as Hperm.
  assert (Hd' : distinct_timestamps (sort drinks)).
  { apply distinct_timestamps_perm with drinks; [now symmetry|exact Hdist]. }
  destruct (sort drinks) as [|d r] eqn:E; [constructor|].
  destruct (@exists_last _ (d :: r)) as [l' [dl El]]; [discriminate|].
  rewrite El in *. rewrite fold_left_app. simpl.
  pose proof (sorted_last_max l' dl Hsorted) as Hmax.
  assert (Hlt : forall x, In x l' -> Drink.timestamp x < Drink.timestamp dl).
  { intros x Hx.
    assert (Hle : le_ts x dl) by (apply Hmax, in_or_app; now left).
    pose proof (distinct_timestamps_last l' dl Hd' x Hx) as Hne.
    unfold le_ts in Hle. apply Qle_lteq in Hle. tauto. }
  apply body_inv_last with (bound := Drink.timestamp dl).
  - apply find_later_none. exact Hmax.
  - apply Qle_refl.
  - destruct (Hdata dl) as [Hv Hp].
    { apply Permutation_in with (l' ++ [dl]); [exact Hperm|].
      apply in_or_app. right. now left. }
    now apply bacIncrease_nonneg.
  - destruct l' as [|d0 r0].
    + simpl. repeat split; simpl; [constructor|contradiction|apply Qle_refl].
    + apply fold_inv_prefix with (lower := Drink.timestamp d0).
      * clear - Hsorted. induction (d0 :: r0) as [|a l IH]; [constructor|].
        simpl in Hsorted. apply StronglySorted_inv in Hsorted.
        destruct Hsorted as [S F]. constructor; [now apply IH|].
        apply Forall_app in F. tauto.
      * intros x Hx.
        destruct (find_later_some ((d0 :: r0) ++ [dl]) x dl) as [n [Hn _]].
        -- apply in_or_app. right. now left.
        -- now apply Hlt.
        -- now exists n.
      * apply Qlt_le_weak, Hlt. now left.
      * intros x Hx. split.
        -- destruct Hx as [<-|Hx]; [apply Qle_refl|].
           simpl in Hsorted. apply StronglySorted_inv in Hsorted.
           destruct Hsorted as [_ F]. rewrite Forall_forall in F.
           apply F. apply in_or_app. now left.
        -- apply Qlt_le_weak, Hlt. exact Hx.
      * repeat split; simpl; [constructor|contradiction|apply Qle_refl].
Qed.

Lemma calculateChartData_chronological_distinct_witness :
  chronological (calculateChartData [beer 3600000; beer 0] male 7200000 75).
Proof.
  apply (calculateChartData_chronological_distinct
           [beer 3600000; beer 0] male 7200000 75).
  - simpl. repeat split; try tauto.
    intros x [<-|[]]. discriminate.
  - intros d [<-|[<-|[]]]; split; discriminate.
  - reflexivity.
Defined.

(** * Further properties of [calculateBac] *)

Lemma Qdiv_le_antitone (a b1 b2 : Q) :
  0 <= a -> 0 < b1 -> b1 <= b2 -> a / b2 <= a / b1.
Proof.
  intros Ha Hb1 Hb.
  assert (Hb2 : 0 < b2) by lra.
  apply Qle_shift_div_l; [exact Hb1|].
  assert (E : a / b2 * b1 == (b1 / b2) * a) by (field; lra).
  rewrite E.
  assert (H1 : b1 / b2 <= 1).
  { apply Qle_shift_div_r; [exact Hb2|]. lra. }
  rewrite <- (Qmult_1_l a) at 2.
  apply Qmult_le_compat_r; assumption.
Qed.

(** Replace every [Qmax] and [Qmin] of the goal and the hypotheses,
    innermost first, by a variable constrained by its specification, and
    conclude by linear arithmetic. *)
Ltac abstract_max a b :=
  lazymatch a with
  | context [Qmax _ _] => fail
  | _ =>
      lazymatch b with
      | context [Qmax _ _] => fail
      | _ =>
          let m := fresh "m" in
          pose proof (Q.max_spec a b);
          set (m := Qmax a b) in *; clearbody m
      end
  end.

Ltac abstract_min a b :=
  let m := fresh "m" in
  pose proof (Q.min_spec a b);
  set (m := Qmin a b) in *; clearbody m.

Ltac qminmax_lra :=
  repeat match goal with
    | |- context [Qmax ?a ?b] => abstract_max a b
    | _ : context [Qmax ?a ?b] |- _ => abstract_max a b
    | |- context [Qmin ?a ?b] => abstract_min a b
    | _ : context [Qmin ?a ?b] |- _ => abstract_min a b
    end;
  lra.

Lemma Qmax_decay_sum (a b x : Q) :
  0 <= a -> 0 <= x ->
  Qmax 0 (a - x) + Qmax 0 (b - x) <= Qmax 0 (a + Qmax 0 b - x).
Proof. intros Ha Hx. qminmax_lra. Qed.

Section EvaluatorAlgebra.

Variables (gender : Gender) (weight : Q).

Lemma contribution_future (t : Q) (d : Drink.t) :
  t < Drink.timestamp d -> contribution gender t weight d = 0.
Proof. intros H. unfold contribution. now apply calculateBac_body_skip. Qed.

Lemma contribution_past (t : Q) (d : Drink.t) :
  Drink.timestamp d <= t ->
  contribution gender t weight d
  == Qmax 0 (initialBAC gender weight d
             - METABOLISM_RATE * ((t - Drink.timestamp d) / (60 * 60 * 1000))).
Proof.
  intros H. unfold contribution, calculateBac_body, initialBAC.
  apply gtb_false in H. rewrite H. cbv zeta. apply Qplus_0_l.
Qed.

Lemma contribution_nonneg (t : Q) (d : Drink.t) :
  0 <= contribution gender t weight d.
Proof. unfold contribution. apply calculateBac_body_ge. Qed.

Lemma calculateBac_body_contribution (t acc : Q) (d : Drink.t) :
  calculateBac_body gender t weight acc d
  == acc + contribution gender t weight d.
Proof.
  unfold contribution, calculateBac_body.
  destruct (gtb (Drink.timestamp d) t); cbv zeta; ring.
Qed.

Lemma fold_calculateBac_shift (t : Q) (l : list Drink.t) :
  forall acc,
    fold_left (calculateBac_body gender t weight) l acc
    == acc + calculateBac l gender t weight.
Proof.
  unfold calculateBac.
  induction l as [|d r IH]; intros acc; simpl; [ring|].
  rewrite (IH (calculateBac_body gender t weight acc d)).
  rewrite (IH (calculateBac_body gender t weight 0 d)).
  rewrite (calculateBac_body_contribution t acc d).
  rewrite (calculateBac_body_contribution t 0 d). ring.
Qed.

Lemma calculateBac_cons (t : Q) (d : Drink.t) (l : list Drink.t) :
  calculateBac (d :: l) gender t weight
  == contribution gender t weight d + calculateBac l gender t weight.
Proof.
  unfold calculateBac at 1. simpl. rewrite fold_calculateBac_shift.
  reflexivity.
Qed.

Lemma calculateBac_app (t : Q) (l1 l2 : list Drink.t) :
  calculateBac (l1 ++ l2) gender t weight
  == calculateBac l1 gender t weight + calculateBac l2 gender t weight.
Proof.
  unfold calculateBac at 1. rewrite fold_left_app.
  rewrite fold_calculateBac_shift. reflexivity.
Qed.

Lemma calculateBac_ge_0 (t : Q) (l : list Drink.t) :
  0 <= calculateBac l gender t weight.
Proof. apply fold_calculateBac_ge. Qed.

Lemma calculateBac_perm (t : Q) (l1 l2 : list Drink.t) :
  Permutation l1 l2 ->
  calculateBac l1 gender t weight == calculateBac l2 gender t weight.
Proof.
  induction 1 as [|d r1 r2 P IH|a b r|l1 l2 l3 P1 IH1 P2 IH2].
  - reflexivity.
  - rewrite !calculateBac_cons, IH. reflexivity.
  - rewrite !calculateBac_cons. ring.
  - now rewrite IH1.
Qed.

End EvaluatorAlgebra.

Lemma alcoholGrams_nonneg (d : Drink.t) :
  0 <= Drink.volume d -> 0 <= Drink.alcoholPercentage d ->
  0 <= Drink.volume d * (Drink.alcoholPercentage d / 100) * 0.789.
Proof.
  intros Hv Hp.
  apply Qmult_le_0_compat; [|discriminate].
  apply Qmult_le_0_compat; [exact Hv|].
  apply Qle_shift_div_l; [reflexivity|]. lra.
Qed.

Lemma GENDER_CONSTANTS_pos (g : Gender) : 0 < GENDER_CONSTANTS g.
Proof. destruct g; reflexivity. Qed.

(** The peak of a drink shrinks when the product of weight and distribution
    ratio grows. *)
Lemma initialBAC_antitone (g1 g2 : Gender) (w1 w2 : Q) (d : Drink.t) :
  0 <= Drink.volume d -> 0 <= Drink.alcoholPercentage d ->
  0 < w1 ->
  w1 * GENDER_CONSTANTS g1 <= w2 * GENDER_CONSTANTS g2 ->
  initialBAC g2 w2 d <= initialBAC g1 w1 d.
Proof.
  intros Hv Hp Hw1 Hle. unfold initialBAC.
  pose proof (GENDER_CONSTANTS_pos g1) as G1.
  pose proof (GENDER_CONSTANTS_pos g2) as G2.
  apply Qmult_le_compat_r; [|discriminate].
  apply Qdiv_le_antitone.
  - now apply alcoholGrams_nonneg.
  - apply Qmult_lt_0_compat; [|exact G1].
    apply Qmult_lt_0_compat; [exact Hw1|reflexivity].
  - set (a := GENDER_CONSTANTS g1) in *. set (b := GENDER_CONSTANTS g2) in *.
    assert (E1 : w1 * 1000 * a == 1000 * (w1 * a)) by ring.
    assert (E2 : w2 * 1000 * b == 1000 * (w2 * b)) by ring.
    rewrite E1, E2. lra.
Qed.

Lemma contribution_antitone (g1 g2 : Gender) (w1 w2 t : Q) (d : Drink.t) :
  initialBAC g2 w2 d <= initialBAC g1 w1 d ->
  contribution g2 t w2 d <= contribution g1 t w1 d.
Proof.
  intros H. destruct (Qlt_le_dec t (Drink.timestamp d)) as [Hf|Hp].
  - rewrite !contribution_future by exact Hf. apply Qle_refl.
  - rewrite !contribution_past by exact Hp.
    apply Q.max_le_compat_l. lra.
Qed.

Lemma calculateBac_antitone_profile
    (g1 g2 : Gender) (w1 w2 t : Q) (drinks : list Drink.t) :
  (forall d, In d drinks -> initialBAC g2 w2 d <= initialBAC g1 w1 d) ->
  calculateBac drinks g2 t w2 <= calculateBac drinks g1 t w1.
Proof.
  induction drinks as [|d r IH]; intros H.
  - apply Qle_refl.
  - rewrite !calculateBac_cons.
    apply Qplus_le_compat.
    + apply contribution_antitone. apply H. now left.
    + apply IH. intros x Hx. apply H. now right.
Qed.




(** X3. For drinks with non-negative volume and strength, a heavier person
    of the same gender never reads higher, and at the same positive weight
    the male ratio never reads higher than the female one. *)
Theorem calculateBac_profile_monotone
    (drinks : list Drink.t) (gender : Gender) (t w1 w2 : Q) :
  (forall d, In d drinks ->
             0 <= Drink.volume d /\ 0 <= Drink.alcoholPercentage d) ->
  0 < w1 -> w1 <= w2 ->
  calculateBac drinks gender t w2 <= calculateBac drinks gender t w1
  /\ calculateBac drinks male t w1 <= calculateBac drinks female t w1.
Proof.
  intros Hd Hw Hle. split.
  - apply calculateBac_antitone_profile. intros d Hin.
    destruct (Hd d Hin) as [Hv Hp].
    apply initialBAC_antitone; auto.
    pose proof (GENDER_CONSTANTS_pos gender) as G.
    apply Qmult_le_compat_r; [exact Hle|lra].
  - apply calculateBac_antitone_profile. intros d Hin.
    destruct (Hd d Hin) as [Hv Hp].
    apply initialBAC_antitone; auto. simpl. lra.
Qed.

Lemma calculateBac_profile_monotone_witness :
  calculateBac [beer 0; beer 3600000] female 7200000 90
  <= calculateBac [beer 0; beer 3600000] female 7200000 60
  /\ calculateBac [beer 0; beer 3600000] male 7200000 60
     <= calculateBac [beer 0; beer 3600000] female 7200000 60.
Proof.
  apply (calculateBac_profile_monotone
           [beer 0; beer 3600000] female 7200000 60 90).
  - intros d [<-|[<-|[]]]; split; discriminate.
  - reflexivity.
  - discriminate.
Defined.

Lemma contribution_zero_iff (g : Gender) (t w : Q) (d : Drink.t) :
  contribution g t w d == 0
  <-> (t < Drink.timestamp d
       \/ initialBAC g w d
          <= METABOLISM_RATE * ((t - Drink.timestamp d) / (60 * 60 * 1000))).
Proof.
  destruct (Qlt_le_dec t (Drink.timestamp d)) as [Hf|Hp].
  - rewrite contribution_future by exact Hf. split; [now left|reflexivity].
  - rewrite contribution_past by exact Hp.
    set (y := METABOLISM_RATE * _). split.
    + intros H. right. qminmax_lra.
    + intros [H|H]; [lra|]. qminmax_lra.
Qed.

Lemma calculateBac_zero_iff (drinks : list Drink.t) (gender : Gender) (t weight : Q) :
  calculateBac drinks gender t weight == 0
  <-> forall d, In d drinks ->
        t < Drink.timestamp d
        \/ initialBAC gender weight d
           <= METABOLISM_RATE * ((t - Drink.timestamp d) / (60 * 60 * 1000)).
Proof.
  induction drinks as [|d r IH].
  - split; [intros _ d []|reflexivity].
  - rewrite calculateBac_cons.
    pose proof (contribution_nonneg gender weight t d) as Hc.
    pose proof (calculateBac_ge_0 gender weight t r) as Hr.
    split.
    + intros H x [<-|Hx].
      * apply contribution_zero_iff. lra.
      * apply IH; [lra|exact Hx].
    + intros H.
      assert (E1 : contribution gender t weight d == 0).
      { apply contribution_zero_iff. apply H. now left. }
      assert (E2 : calculateBac r gender t weight == 0).
      { apply IH. intros x Hx. apply H. now right. }
      lra.
Qed.


(** X4. The reading is 0 exactly when every drink is still in the future or
    is fully metabolised: its peak is at most 0.015 per hour elapsed. *)
Theorem calculateBac_zero_iff_eliminated
    (drinks : list Drink.t) (gender : Gender) (t weight : Q) :
  0 < weight ->
  (calculateBac drinks gender t weight == 0
   <-> forall d, In d drinks ->
         t < Drink.timestamp d
         \/ initialBAC gender weight d
            <= METABOLISM_RATE * ((t - Drink.timestamp d) / (60 * 60 * 1000))).
Proof. intros _. apply calculateBac_zero_iff. Qed.

Lemma calculateBac_zero_iff_eliminated_witness :
  calculateBac [beer 0] male (4 * 3600000) 75 == 0
  <-> forall d, In d [beer 0] ->
        4 * 3600000 < Drink.timestamp d
        \/ initialBAC male 75 d
           <= METABOLISM_RATE
              * ((4 * 3600000 - Drink.timestamp d) / (60 * 60 * 1000)).
Proof.
  apply (calculateBac_zero_iff_eliminated [beer 0] male (4 * 3600000) 75).
  reflexivity.
Defined.

(** Between two query times that no event separates, one drink's
    contribution falls by the metabolised amount or to 0. *)
Lemma contribution_decay (g : Gender) (w t1 t2 : Q) (d : Drink.t) :
  t1 <= t2 ->
  ~ (t1 < Drink.timestamp d /\ Drink.timestamp d <= t2) ->
  contribution g t2 w d
  == Qmax 0 (contribution g t1 w d
             - METABOLISM_RATE * ((t2 - t1) / (60 * 60 * 1000)))
  \/ (contribution g t2 w d = 0 /\ contribution g t1 w d = 0).
Proof.
  intros Ht Hd.
  destruct (Qlt_le_dec t2 (Drink.timestamp d)) as [Hf|Hp].
  - right. split; apply contribution_future; lra.
  - left.
    assert (Hp1 : Drink.timestamp d <= t1).
    { destruct (Qlt_le_dec t1 (Drink.timestamp d)); [|assumption].
      exfalso. apply Hd. now split. }
    rewrite !contribution_past by assumption.
    rewrite !div_hour. unfold METABOLISM_RATE.
    set (p := initialBAC g w d). qminmax_lra.
Qed.

Lemma calculateBac_decay
    (drinks : list Drink.t) (g : Gender) (w t1 t2 : Q) :
  t1 <= t2 ->
  (forall d, In d drinks ->
             ~ (t1 < Drink.timestamp d /\ Drink.timestamp d <= t2)) ->
  calculateBac drinks g t2 w
  <= Qmax 0 (calculateBac drinks g t1 w
             - METABOLISM_RATE * ((t2 - t1) / (60 * 60 * 1000))).
Proof.
  intros Ht. induction drinks as [|d r IH]; intros H.
  - apply Q.le_max_l.
  - rewrite !calculateBac_cons.
    pose proof (contribution_nonneg g w t1 d) as Hc.
    pose proof (calculateBac_ge_0 g w t1 r) as Hr.
    assert (IH' := IH (fun x Hx => H x (or_intror Hx))).
    assert (Hx : 0 <= METABOLISM_RATE * ((t2 - t1) / (60 * 60 * 1000))).
    { rewrite div_hour. unfold METABOLISM_RATE. lra. }
    set (x := METABOLISM_RATE * _) in *.
    destruct (contribution_decay g w t1 t2 d Ht (H d (or_introl eq_refl)))
      as [E|[E2 E1]].
    + fold x in E. qminmax_lra.
    + rewrite E1, E2. qminmax_lra.
Qed.



(** * Further properties of [estimateTimeUntilTarget] and the derived values *)

(** The estimate is the excess over the target, floored at 0, at 240000000
    ms per unit of level (one hour per 0.015). *)
Lemma estimateTimeUntilTarget_max (c t : Q) :
  estimateTimeUntilTarget c t == Qmax 0 (c - t) * 240000000.
Proof.
  unfold estimateTimeUntilTarget.
  destruct (Qle_bool c t) eqn:E.
  - apply Qle_bool_iff in E. rewrite Q.max_l by lra. ring.
  - assert (H : ~ c <= t) by (intros H; apply Qle_bool_iff in H; congruence).
    apply Qnot_le_lt in H. rewrite Q.max_r by lra.
    rewrite div_rate. ring.
Qed.



(** X6. The estimate is never negative, grows with the current level and
    shrinks as the target rises. *)
Theorem estimateTimeUntilTarget_monotone (c1 c2 t1 t2 : Q) :
  c1 <= c2 -> t2 <= t1 ->
  0 <= estimateTimeUntilTarget c1 t1
  /\ estimateTimeUntilTarget c1 t1 <= estimateTimeUntilTarget c2 t2.
Proof.
  intros Hc Ht. rewrite !estimateTimeUntilTarget_max. split; qminmax_lra.
Qed.

Lemma estimateTimeUntilTarget_monotone_witness :
  0 <= estimateTimeUntilTarget 0.06 0.05
  /\ estimateTimeUntilTarget 0.06 0.05 <= estimateTimeUntilTarget 0.08 0.
Proof.
  apply (estimateTimeUntilTarget_monotone 0.06 0.08 0.05 0); discriminate.
Defined.

(** X7. The displayed values are consistent: the limit is exceeded exactly
    when some time remains until the legal level, and for a limit that is
    not negative the legal time is neither before the current time nor
    after the sober time. *)
Theorem derivedValues_consistent (bac bacLimit currentTime : Q) :
  0 <= bacLimit ->
  let v := derivedValues bac bacLimit currentTime in
  (Derived.isOverLimit v = true <-> 0 < Derived.timeUntilLegal v)
  /\ Derived.timeUntilLegal v <= Derived.timeUntilSober v
  /\ currentTime <= Derived.legalTime v
  /\ Derived.legalTime v <= Derived.soberTime v.
Proof.
  intros Hl. cbv zeta. unfold derivedValues. simpl.
  rewrite gtb_true, !estimateTimeUntilTarget_max.
  repeat split; qminmax_lra.
Qed.

Lemma derivedValues_consistent_witness :
  let v := derivedValues 0.08 0.05 1000 in
  (Derived.isOverLimit v = true <-> 0 < Derived.timeUntilLegal v)
  /\ Derived.timeUntilLegal v <= Derived.timeUntilSober v
  /\ 1000 <= Derived.legalTime v
  /\ Derived.legalTime v <= Derived.soberTime v.
Proof.
  apply (derivedValues_consistent 0.08 0.05 1000). discriminate.
Defined.





(** * The handlers of the component *)

Lemma filter_index_skip {A : Type} (l : list A) (index i : nat) :
  (index < i)%nat ->
  filter_index (fun _ drinkIndex => negb (Nat.eqb drinkIndex index)) l i = l.
Proof.
  revert i. induction l as [|x r IH]; intros i Hi; simpl; [reflexivity|].
  destruct (Nat.eqb_spec i index) as [E|E]; [lia|]. simpl.
  f_equal. apply IH. lia.
Qed.

Lemma filter_index_remove {A : Type} (l : list A) (index i : nat) :
  (i <= index)%nat ->
  filter_index (fun _ drinkIndex => negb (Nat.eqb drinkIndex index)) l i
  = firstn (index - i) l ++ skipn (S (index - i)) l.
Proof.
  revert i. induction l as [|x r IH]; intros i Hi; simpl.
  - now destruct (index - i)%nat.
  - destruct (Nat.eqb_spec i index) as [E|E]; simpl.
    + subst i. rewrite Nat.sub_diag. simpl. apply filter_index_skip. lia.
    + destruct (index - i)%nat as [|k] eqn:Ek; [lia|]. simpl. f_equal.
      rewrite IH by lia. replace (index - S i)%nat with k by lia. reflexivity.
Qed.

Lemma handleDeleteDrink_spec (drinks : list Drink.t) (index : nat) :
  handleDeleteDrink drinks index
  = firstn index drinks ++ skipn (S index) drinks.
Proof.
  unfold handleDeleteDrink. rewrite filter_index_remove by lia.
  now rewrite Nat.sub_0_r.
Qed.

(** X10. Deleting removes the drink at the given index and nothing else: an
    index inside the log shortens it by one and keeps the other drinks in
    order, an index outside leaves the log as it is. *)
Theorem handleDeleteDrink_removes_one (drinks : list Drink.t) (index : nat) :
  ((index < length drinks)%nat ->
   S (length (handleDeleteDrink drinks index)) = length drinks
   /\ (forall i, (i < index)%nat ->
         nth_error (handleDeleteDrink drinks index) i = nth_error drinks i)
   /\ (forall i, (index <= i)%nat ->
         nth_error (handleDeleteDrink drinks index) i
         = nth_error drinks (S i)))
  /\ ((length drinks <= index)%nat -> handleDeleteDrink drinks index = drinks).
Proof.
  rewrite handleDeleteDrink_spec. split.
  - intros Hi.
    assert (Hf : length (firstn index drinks) = index).
    { rewrite length_firstn. lia. }
    repeat split.
    + rewrite length_app, Hf, length_skipn. lia.
    + intros i Hlt. rewrite nth_error_app1 by lia.
      rewrite nth_error_firstn.
      destruct (Nat.ltb_spec i index); [reflexivity|lia].
    + intros i Hle. rewrite nth_error_app2 by lia.
      rewrite Hf, nth_error_skipn. f_equal. lia.
  - intros Hi. rewrite firstn_all2 by exact Hi.
    rewrite skipn_all2 by lia. apply app_nil_r.
Qed.

Lemma handleDeleteDrink_removes_one_witness :
  S (length (handleDeleteDrink [beer 0; beer 10; beer 20] 1))
  = length [beer 0; beer 10; beer 20]
  /\ handleDeleteDrink [beer 0; beer 10; beer 20] 3
     = [beer 0; beer 10; beer 20].
Proof.
  split.
  - apply (handleDeleteDrink_removes_one [beer 0; beer 10; beer 20] 1).
    simpl. lia.
  - apply (handleDeleteDrink_removes_one [beer 0; beer 10; beer 20] 3).
    simpl. lia.
Defined.

(** X11. Deleting the row a successful add has just appended gives the
    previous log back. *)
Theorem handleDeleteDrink_undoes_add
    (drinks : list Drink.t) (newDrink : PartialDrink.t) (currentTime : Q) :
  handleAddDrink drinks newDrink currentTime <> drinks ->
  handleDeleteDrink (handleAddDrink drinks newDrink currentTime)
                    (length drinks)
  = drinks.
Proof.
  unfold handleAddDrink.
  destruct (PartialDrink.alcoholPercentage newDrink) as [p|];
    destruct (PartialDrink.volume newDrink) as [v|]; try congruence.
  destruct (negb (Qeq_bool p 0) && negb (Qeq_bool v 0)); [|congruence].
  intros _. rewrite handleDeleteDrink_spec.
  rewrite skipn_all2 by (rewrite length_app; simpl; lia).
  rewrite firstn_app, Nat.sub_diag, firstn_all. simpl.
  now rewrite !app_nil_r.
Qed.

Lemma handleDeleteDrink_undoes_add_witness :
  handleDeleteDrink
    (handleAddDrink [beer 0] (PartialDrink.make None (Some 330) (Some 12)) 5000)
    (length [beer 0])
  = [beer 0].
Proof.
  apply (handleDeleteDrink_undoes_add
           [beer 0] (PartialDrink.make None (Some 330) (Some 12)) 5000).
  discriminate.
Defined.

(** X12. Deleting a drink never raises the reading. *)
Theorem handleDeleteDrink_lowers_reading
    (drinks : list Drink.t) (index : nat) (gender : Gender) (t weight : Q) :
  0 < weight ->
  calculateBac (handleDeleteDrink drinks index) gender t weight
  <= calculateBac drinks gender t weight.
Proof.
  intros _. rewrite handleDeleteDrink_spec.
  rewrite <- (firstn_skipn index drinks) at 3.
  rewrite !calculateBac_app.
  apply Qplus_le_compat; [apply Qle_refl|].
  destruct (skipn index drinks) as [|d r] eqn:E.
  - rewrite (skipn_all2 drinks).
    + apply Qle_refl.
    + apply (f_equal (@length _)) in E. rewrite length_skipn in E.
      simpl in E. lia.
  - replace (skipn (S index) drinks) with r.
    + rewrite calculateBac_cons.
      pose proof (contribution_nonneg gender weight t d). lra.
    + change (S index) with (1 + index)%nat.
      rewrite <- skipn_skipn, E. reflexivity.
Qed.

Lemma handleDeleteDrink_lowers_reading_witness :
  calculateBac (handleDeleteDrink [beer 0; beer 3600000] 0) male 7200000 75
  <= calculateBac [beer 0; beer 3600000] male 7200000 75.
Proof.
  apply (handleDeleteDrink_lowers_reading [beer 0; beer 3600000] 0
           male 7200000 75).
  reflexivity.
Defined.

(** X13. The add guard: the log changes only when both form values are
    present and not zero, and then exactly one drink, stamped with the
    current time and carrying the form values, is appended. *)
Theorem handleAddDrink_guard
    (drinks : list Drink.t) (newDrink : PartialDrink.t) (currentTime : Q) :
  handleAddDrink drinks newDrink currentTime <> drinks ->
  exists volume alcoholPercentage,
    PartialDrink.volume newDrink = Some volume
    /\ PartialDrink.alcoholPercentage newDrink = Some alcoholPercentage
    /\ ~ volume == 0 /\ ~ alcoholPercentage == 0
    /\ handleAddDrink drinks newDrink currentTime
       = drinks ++ [Drink.make currentTime volume alcoholPercentage].
Proof.
  unfold handleAddDrink.
  destruct (PartialDrink.alcoholPercentage newDrink) as [p|];
    destruct (PartialDrink.volume newDrink) as [v|]; try congruence.
  destruct (Qeq_bool p 0) eqn:Ep; destruct (Qeq_bool v 0) eqn:Ev;
    simpl; try congruence.
  intros _. exists v, p. repeat split.
  - now apply Qeq_bool_neq.
  - now apply Qeq_bool_neq.
Qed.

Lemma handleAddDrink_guard_witness :
  exists volume alcoholPercentage,
    Some 330 = Some volume
    /\ Some 12 = Some alcoholPercentage
    /\ ~ volume == 0 /\ ~ alcoholPercentage == 0
    /\ handleAddDrink [beer 0] (PartialDrink.make None (Some 330) (Some 12)) 5000
       = [beer 0] ++ [Drink.make 5000 volume alcoholPercentage].
Proof.
  apply (handleAddDrink_guard
           [beer 0] (PartialDrink.make None (Some 330) (Some 12)) 5000).
  discriminate.
Defined.

(** X14. A drink added through the form with positive volume and strength
    raises the current reading by exactly its Widmark peak, so the reading
    is positive and the clearing effect leaves the new log alone. *)
Theorem handleAddDrink_raises_reading
    (drinks : list Drink.t) (volume alcoholPercentage : Q)
    (gender : Gender) (weight currentTime : Q) :
  0 < volume -> 0 < alcoholPercentage -> 0 < weight ->
  let newDrink :=
    PartialDrink.make None (Some volume) (Some alcoholPercentage) in
  let drinks' := handleAddDrink drinks newDrink currentTime in
  let bac' := calculateBac drinks' gender currentTime weight in
  bac' == calculateBac drinks gender currentTime weight
          + initialBAC gender weight
              (Drink.make currentTime volume alcoholPercentage)
  /\ 0 < bac'
  /\ clearWhenSober bac' drinks' = drinks'.
Proof.
  intros Hv Hp Hw. cbv zeta. unfold handleAddDrink. simpl.
  assert (Ep : Qeq_bool alcoholPercentage 0 = false).
  { destruct (Qeq_bool alcoholPercentage 0) eqn:E; [|reflexivity].
    apply Qeq_bool_eq in E. lra. }
  assert (Ev : Qeq_bool volume 0 = false).
  { destruct (Qeq_bool volume 0) eqn:E; [|reflexivity].
    apply Qeq_bool_eq in E. lra. }
  rewrite Ep, Ev. simpl.
  set (d := Drink.make currentTime volume alcoholPercentage).
  assert (Hpeak : 0 < initialBAC gender weight d).
  { unfold initialBAC, d. simpl.
    pose proof (GENDER_CONSTANTS_pos gender) as G.
    apply Qmult_lt_0_compat; [|reflexivity].
    apply Qlt_shift_div_l.
    - repeat apply Qmult_lt_0_compat; auto; reflexivity.
    - rewrite Qmult_0_l.
      repeat apply Qmult_lt_0_compat; auto; reflexivity. }
  assert (E : calculateBac (drinks ++ [d]) gender currentTime weight
              == calculateBac drinks gender currentTime weight
                 + initialBAC gender weight d).
  { rewrite calculateBac_app.
    rewrite (calculateBac_single gender weight d currentTime) by apply Qle_refl.
    fold (initialBAC gender weight d). simpl (Drink.timestamp d).
    rewrite div_hour. unfold METABOLISM_RATE.
    set (p := initialBAC gender weight d) in *.
    assert (Ez : p - 0.015 * ((currentTime - currentTime) * (1 # 3600000)) == p)
      by ring.
    rewrite Ez, Q.max_r by lra. reflexivity. }
  pose proof (calculateBac_ge_0 gender weight currentTime drinks) as H0.
  assert (Hpos : 0 < calculateBac (drinks ++ [d]) gender currentTime weight)
    by lra.
  repeat split; [exact E|exact Hpos|].
  unfold clearWhenSober.
  destruct (Qle_bool _ 0) eqn:Eb; [|reflexivity].
  apply Qle_bool_iff in Eb. lra.
Qed.

Lemma handleAddDrink_raises_reading_witness :
  let drinks' :=
    handleAddDrink [beer 0] (PartialDrink.make None (Some 330) (Some 12))
                   3600000 in
  let bac' := calculateBac drinks' female 3600000 60 in
  bac' == calculateBac [beer 0] female 3600000 60
          + initialBAC female 60 (Drink.make 3600000 330 12)
  /\ 0 < bac'
  /\ clearWhenSober bac' drinks' = drinks'.
Proof.
  apply (handleAddDrink_raises_reading [beer 0] 330 12 female 60 3600000);
    reflexivity.
Defined.

(** X15. The clearing effect empties the log exactly when every drink is
    still in the future or fully metabolised. *)
Theorem clearWhenSober_iff_eliminated
    (drinks : list Drink.t) (gender : Gender) (weight currentTime : Q) :
  0 < weight ->
  (clearWhenSober (calculateBac drinks gender currentTime weight) drinks = []
   <-> forall d, In d drinks ->
         currentTime < Drink.timestamp d
         \/ initialBAC gender weight d
            <= METABOLISM_RATE
               * ((currentTime - Drink.timestamp d) / (60 * 60 * 1000))).
Proof.
  intros Hw.
  rewrite <- (calculateBac_zero_iff drinks gender currentTime weight).
  pose proof (calculateBac_ge_0 gender weight currentTime drinks) as H0.
  unfold clearWhenSober.
  destruct (Qle_bool _ 0) eqn:Eb.
  - apply Qle_bool_iff in Eb.
    destruct drinks as [|d r]; simpl; split; intros; try reflexivity; lra.
  - assert (Hn : ~ calculateBac drinks gender currentTime weight <= 0).
    { intros H. apply Qle_bool_iff in H. congruence. }
    simpl. split.
    + intros ->. exfalso. apply Hn. apply Qle_refl.
    + intros E. exfalso. apply Hn. lra.
Qed.

Lemma clearWhenSober_iff_eliminated_witness :
  clearWhenSober (calculateBac [beer 0] male (4 * 3600000) 75) [beer 0] = []
  <-> forall d, In d [beer 0] ->
        4 * 3600000 < Drink.timestamp d
        \/ initialBAC male 75 d
           <= METABOLISM_RATE
              * ((4 * 3600000 - Drink.timestamp d) / (60 * 60 * 1000)).
Proof.
  apply (clearWhenSober_iff_eliminated [beer 0] male 75 (4 * 3600000)).
  reflexivity.
Defined.

(** * Further properties of [calculateChartData] *)

Section SynthesizerShape.

Variables (sortedDrinks : list Drink.t) (gender : Gender) (now weight : Q).

Let body := calculateChartData_body sortedDrinks gender now weight.

(** Every iteration pushes the two samples at the drink's timestamp, the
    second one higher by the drink's peak, and then at most two closing
    samples; it pushes no closing sample when a later drink is found. *)
Lemma body_shape (res : list DataPoint.t) (cur : Q) (d : Drink.t) :
  exists tail,
    fst (body (res, cur) d)
    = res ++ DataPoint.make (Drink.timestamp d) cur false
          :: DataPoint.make (Drink.timestamp d)
                            (cur + initialBAC gender weight d) false
          :: tail
    /\ (length tail <= 2)%nat
    /\ (forall s, In s tail -> 0 <= DataPoint.bac s)
    /\ (forall n,
          find (fun x => gtb (Drink.timestamp x) (Drink.timestamp d))
               sortedDrinks = Some n -> tail = [])
    /\ (find (fun x => gtb (Drink.timestamp x) (Drink.timestamp d))
             sortedDrinks = None -> (1 <= length tail)%nat).
Proof.
  unfold body, initialBAC. body_cases; simpl; rewrite <- !app_assoc; simpl;
    eexists; (split; [reflexivity|]); simpl;
    repeat split; try lia; try congruence; try (intros; lia);
    intros s Hs;
    repeat (destruct Hs as [<-|Hs];
            [simpl; first [apply Qmax_0_nonneg|apply Qle_refl]|]);
    contradiction.
Qed.

Lemma body_level_nonneg (res : list DataPoint.t) (cur : Q) (d : Drink.t) :
  0 <= cur -> 0 <= initialBAC gender weight d ->
  0 <= snd (body (res, cur) d).
Proof.
  intros Hc Hp. unfold body. unfold initialBAC in Hp.
  body_cases; simpl; try apply Qmax_0_nonneg. lra.
Qed.

(** The loop only ever appends to [result]. *)
Lemma fold_body_extends (l : list Drink.t) :
  forall st, exists extra,
    fst (fold_left body l st) = fst st ++ extra.
Proof.
  induction l as [|d r IH]; intros st; simpl.
  - exists []. now rewrite app_nil_r.
  - destruct (IH (body st d)) as [extra E]. rewrite E.
    destruct st as [res cur].
    destruct (body_shape res cur d) as [tail [Et _]]. rewrite Et.
    eexists. simpl. rewrite <- app_assoc. reflexivity.
Qed.

Lemma fold_body_levels_nonneg (l : list Drink.t) :
  (forall d, In d l -> 0 <= initialBAC gender weight d) ->
  forall st,
    (forall s, In s (fst st) -> 0 <= DataPoint.bac s) -> 0 <= snd st ->
    (forall s, In s (fst (fold_left body l st)) -> 0 <= DataPoint.bac s).
Proof.
  intros Hp st H1 H2.
  apply (chart_loop_invariant sortedDrinks gender now weight
           (fun st => (forall s, In s (fst st) -> 0 <= DataPoint.bac s)
                      /\ 0 <= snd st) l); [|now split].
  clear st H1 H2. intros [res cur] d Hd [H1 H2]. cbn [fst snd] in *. split.
  - destruct (body_shape res cur d) as [tail (Et & _ & Ht & _)].
    unfold body in Et. rewrite Et. intros s Hs.
    apply in_app_or in Hs. destruct Hs as [Hs|[<-|[<-|Hs]]]; simpl; auto.
    specialize (Hp d Hd). lra.
  - apply body_level_nonneg; auto.
Qed.

Lemma fold_body_rise (l : list Drink.t) (d : Drink.t) (st : chart_state) :
  In d l ->
  exists i level,
    nth_error (fst (fold_left body l st)) i
    = Some (DataPoint.make (Drink.timestamp d) level false)
    /\ nth_error (fst (fold_left body l st)) (S i)
       = Some (DataPoint.make (Drink.timestamp d)
                              (level + initialBAC gender weight d) false).
Proof.
  intros Hd. destruct (in_split d l Hd) as [l1 [l2 ->]].
  rewrite fold_left_app. cbn [fold_left].
  destruct (fold_left body l1 st) as [res cur].
  destruct (fold_body_extends l2 (body (res, cur) d)) as [extra Ex].
  rewrite Ex.
  destruct (body_shape res cur d) as [tail [Et _]].
  rewrite Et.
  exists (length res), cur. rewrite <- !app_assoc. split.
  - rewrite nth_error_app2 by lia. now rewrite Nat.sub_diag.
  - rewrite nth_error_app2 by lia.
    replace (S (length res) - length res)%nat with 1%nat by lia. reflexivity.
Qed.

End SynthesizerShape.

(** X16. With non-negative volumes and strengths and a positive weight, no
    sample of the chart has a negative level. *)
Theorem calculateChartData_levels_nonneg
    (drinks : list Drink.t) (gender : Gender) (now weight : Q) :
  (forall d, In d drinks ->
             0 <= Drink.volume d /\ 0 <= Drink.alcoholPercentage d) ->
  0 < weight ->
  Forall (fun s => 0 <= DataPoint.bac s)
         (calculateChartData drinks gender now weight).
Proof.
  intros Hd Hw. unfold calculateChartData. cbv zeta.
  pose proof (sort_perm drinks) as Hperm.
  destruct (sort drinks) as [|d r] eqn:E; [constructor|].
  apply Forall_forall.
  apply fold_body_levels_nonneg.
  - intros x Hx. destruct (Hd x) as [Hv Hp].
    { apply Permutation_in with (d :: r); assumption. }
    now apply bacIncrease_nonneg.
  - intros s [].
  - apply Qle_refl.
Qed.

Lemma calculateChartData_levels_nonneg_witness :
  Forall (fun s => 0 <= DataPoint.bac s)
         (calculateChartData [beer 3600000; beer 0] male 7200000 75).
Proof.
  apply (calculateChartData_levels_nonneg
           [beer 3600000; beer 0] male 7200000 75).
  - intros d [<-|[<-|[]]]; split; discriminate.
  - reflexivity.
Defined.

(** X17. For a non-empty log the chart starts at level 0 at the timestamp
    of an earliest drink. *)
Theorem calculateChartData_starts_at_zero
    (drinks : list Drink.t) (gender : Gender) (now weight : Q) :
  drinks <> [] ->
  exists first rest,
    calculateChartData drinks gender now weight = first :: rest
    /\ DataPoint.bac first = 0
    /\ (exists d, In d drinks
                  /\ DataPoint.timestamp first = Drink.timestamp d)
    /\ (forall d, In d drinks ->
                  DataPoint.timestamp first <= Drink.timestamp d).
Proof.
  intros Hne. unfold calculateChartData. cbv zeta.
  pose proof (sort_sorted drinks) as Hsorted.
  pose proof (sort_perm drinks) as Hperm.
  destruct (sort drinks) as [|d r] eqn:E.
  { apply Permutation_nil in Hperm. contradiction. }
  cbn [fold_left].
  destruct (fold_body_extends (d :: r) gender now weight r
              (calculateChartData_body (d :: r) gender now weight ([], 0) d))
    as [extra Ex].
  rewrite Ex.
  destruct (body_shape (d :: r) gender now weight [] 0 d) as [tail [Et _]].
  rewrite Et. simpl.
  eexists _, _. split; [reflexivity|]. simpl. split; [reflexivity|]. split.
  - exists d. split; [|reflexivity].
    apply Permutation_in with (d :: r); [exact Hperm|now left].
  - intros x Hx.
    assert (Hx' : In x (d :: r)).
    { apply Permutation_in with drinks; [now symmetry|exact Hx]. }
    apply StronglySorted_inv in Hsorted. destruct Hsorted as [_ F].
    destruct Hx' as [<-|Hx']; [apply Qle_refl|].
    rewrite Forall_forall in F. now apply F.
Qed.

Lemma calculateChartData_starts_at_zero_witness :
  exists first rest,
    calculateChartData [beer 3600000; beer 0] male 7200000 75 = first :: rest
    /\ DataPoint.bac first = 0
    /\ (exists d, In d [beer 3600000; beer 0]
                  /\ DataPoint.timestamp first = Drink.timestamp d)
    /\ (forall d, In d [beer 3600000; beer 0] ->
                  DataPoint.timestamp first <= Drink.timestamp d).
Proof.
  apply (calculateChartData_starts_at_zero
           [beer 3600000; beer 0] male 7200000 75).
  discriminate.
Defined.

(** X18. Every drink of the log shows in the chart as a vertical rise: two
    consecutive samples at the drink's timestamp, the second higher than
    the first by the drink's Widmark peak. *)
Theorem calculateChartData_rise_per_drink
    (drinks : list Drink.t) (gender : Gender) (now weight : Q) (d : Drink.t) :
  0 < weight ->
  In d drinks ->
  exists i level,
    nth_error (calculateChartData drinks gender now weight) i
    = Some (DataPoint.make (Drink.timestamp d) level false)
    /\ nth_error (calculateChartData drinks gender now weight) (S i)
       = Some (DataPoint.make (Drink.timestamp d)
                              (level + initialBAC gender weight d) false).
Proof.
  intros _ Hd. unfold calculateChartData. cbv zeta.
  pose proof (sort_perm drinks) as Hperm.
  assert (Hd' : In d (sort drinks)).
  { apply Permutation_in with drinks; [now symmetry|exact Hd]. }
  destruct (sort drinks) as [|d0 r0] eqn:E; [contradiction|].
  now apply fold_body_rise.
Qed.

Lemma calculateChartData_rise_per_drink_witness :
  exists i level,
    nth_error (calculateChartData [beer 3600000; beer 0] male 7200000 75) i
    = Some (DataPoint.make (Drink.timestamp (beer 3600000)) level false)
    /\ nth_error (calculateChartData [beer 3600000; beer 0] male 7200000 75) (S i)
       = Some (DataPoint.make (Drink.timestamp (beer 3600000))
                              (level + initialBAC male 75 (beer 3600000)) false).
Proof.
  apply (calculateChartData_rise_per_drink
           [beer 3600000; beer 0] male 7200000 75 (beer 3600000)).
  - reflexivity.
  - now left.
Defined.

(** ** The loop on a sorted log without shared timestamps *)

Lemma StronglySorted_app_inv {A : Type} (R : A -> A -> Prop) (l1 l2 : list A) :
  StronglySorted R (l1 ++ l2) ->
  forall a b, In a l1 -> In b l2 -> R a b.
Proof.
  induction l1 as [|x r IH]; simpl; intros S a b Ha Hb; [contradiction|].
  apply StronglySorted_inv in S. destruct S as [S F].
  destruct Ha as [<-|Ha]; [|now apply IH].
  rewrite Forall_forall in F. apply F. apply in_or_app. now right.
Qed.

Lemma distinct_timestamps_app_r (l1 l2 : list Drink.t) :
  distinct_timestamps (l1 ++ l2) -> distinct_timestamps l2.
Proof.
  induction l1 as [|x r IH]; simpl; [trivial|]. intros [_ H]. now apply IH.
Qed.

Lemma find_app_none {A : Type} (p : A -> bool) (l1 l2 : list A) :
  (forall y, In y l1 -> p y = false) -> find p (l1 ++ l2) = find p l2.
Proof.
  induction l1 as [|x r IH]; simpl; intros H; [reflexivity|].
  rewrite (H x) by now left. apply IH. intros y Hy. apply H. now right.
Qed.

(** In a sorted log without shared timestamps, the later drink that [find]
    returns is the next drink of the array. *)
Lemma find_later_next (pre post : list Drink.t) (d n : Drink.t) :
  StronglySorted le_ts (pre ++ d :: n :: post) ->
  distinct_timestamps (pre ++ d :: n :: post) ->
  find (fun x => gtb (Drink.timestamp x) (Drink.timestamp d))
       (pre ++ d :: n :: post)
  = Some n.
Proof.
  intros S D.
  rewrite find_app_none.
  - simpl.
    assert (E1 : gtb (Drink.timestamp d) (Drink.timestamp d) = false)
      by apply gtb_false, Qle_refl.
    rewrite E1.
    assert (E2 : gtb (Drink.timestamp n) (Drink.timestamp d) = true).
    { apply gtb_true.
      assert (Hle : le_ts d n).
      { apply (StronglySorted_app_inv le_ts (pre ++ [d]) (n :: post));
          [now rewrite <- app_assoc| |now left].
        apply in_or_app. right. now left. }
      apply distinct_timestamps_app_r in D. simpl in D.
      destruct D as [D _]. specialize (D n (or_introl eq_refl)).
      unfold le_ts in Hle. apply Qle_lteq in Hle.
      destruct Hle as [Hlt|Heq]; [exact Hlt|].
      exfalso. apply D. now symmetry. }
    now rewrite E2.
  - intros y Hy. apply gtb_false.
    apply (StronglySorted_app_inv le_ts pre (d :: n :: post) S); [exact Hy|now left].
Qed.

(** The running level of the chart stays above the reading of the drinks
    processed so far: if it is so at the timestamp of drink [d], it is so,
    once [d] is added, at every later time up to the next drink. *)
Lemma chart_level_step (pre : list Drink.t) (d : Drink.t)
    (gender : Gender) (weight cur t : Q) :
  (forall y, In y pre -> Drink.timestamp y <= Drink.timestamp d) ->
  Drink.timestamp d <= t ->
  calculateBac pre gender (Drink.timestamp d) weight <= cur ->
  0 <= initialBAC gender weight d ->
  calculateBac (pre ++ [d]) gender t weight
  <= Qmax 0 (cur + initialBAC gender weight d
             - METABOLISM_RATE
               * ((t - Drink.timestamp d) / (60 * 60 * 1000))).
Proof.
  intros Hpre Ht Hcur Hp.
  rewrite calculateBac_app.
  rewrite (calculateBac_single gender weight d t Ht).
  fold (initialBAC gender weight d).
  assert (Hdecay := calculateBac_decay pre gender weight
                      (Drink.timestamp d) t Ht).
  assert (Hx : 0 <= METABOLISM_RATE
                    * ((t - Drink.timestamp d) / (60 * 60 * 1000))).
  { rewrite div_hour. unfold METABOLISM_RATE. lra. }
  set (x := METABOLISM_RATE * _) in *.
  set (p := initialBAC gender weight d) in *.
  pose proof (calculateBac_ge_0 gender weight (Drink.timestamp d) pre) as H0.
  assert (Hd : calculateBac pre gender t weight
               <= Qmax 0 (calculateBac pre gender (Drink.timestamp d) weight - x)).
  { apply Hdecay. intros y Hy [H1 _]. specialize (Hpre y Hy). lra. }
  qminmax_lra.
Qed.

Section SortedDistinct.

Variables (sortedDrinks : list Drink.t) (gender : Gender) (now weight : Q).

Hypothesis sorted : StronglySorted le_ts sortedDrinks.
Hypothesis distinct : distinct_timestamps sortedDrinks.

Let body := calculateChartData_body sortedDrinks gender now weight.

Lemma body_next_distinct (pre post : list Drink.t) (d n : Drink.t)
    (res : list DataPoint.t) (cur : Q) :
  sortedDrinks = pre ++ d :: n :: post ->
  Drink.timestamp d < Drink.timestamp n
  /\ body (res, cur) d
     = (res ++ [DataPoint.make (Drink.timestamp d) cur false;
                DataPoint.make (Drink.timestamp d)
                               (cur + initialBAC gender weight d) false],
        Qmax 0 (cur + initialBAC gender weight d
                - METABOLISM_RATE
                  * ((Drink.timestamp n - Drink.timestamp d) / (60 * 60 * 1000)))).
Proof.
  intros E.
  assert (Hf : find (fun x => gtb (Drink.timestamp x) (Drink.timestamp d))
                    sortedDrinks = Some n).
  { rewrite E. apply find_later_next; rewrite <- E; assumption. }
  split.
  - apply find_some in Hf. destruct Hf as [_ Hf]. now apply gtb_true.
  - unfold body, calculateChartData_body, initialBAC. cbv zeta. rewrite Hf.
    now rewrite <- app_assoc.
Qed.

Lemma body_last_past (pre : list Drink.t) (d : Drink.t)
    (res : list DataPoint.t) (cur : Q) :
  sortedDrinks = pre ++ [d] ->
  Drink.timestamp d < now ->
  exists tail,
    fst (body (res, cur) d)
    = res ++ [DataPoint.make (Drink.timestamp d) cur false;
              DataPoint.make (Drink.timestamp d)
                             (cur + initialBAC gender weight d) false;
              DataPoint.make now
                (Qmax 0 (cur + initialBAC gender weight d
                         - METABOLISM_RATE
                           * ((now - Drink.timestamp d) / (60 * 60 * 1000))))
                false] ++ tail
    /\ (length tail <= 1)%nat
    /\ (forall s, In s tail -> now < DataPoint.timestamp s).
Proof.
  intros E Hnow.
  assert (Hf : find (fun x => gtb (Drink.timestamp x) (Drink.timestamp d))
                    sortedDrinks = None).
  { apply find_later_none. rewrite E. apply sorted_last_max.
    rewrite <- E. exact sorted. }
  unfold body, calculateChartData_body, initialBAC. cbv zeta. rewrite Hf.
  apply gtb_true in Hnow. rewrite Hnow.
  set (p := _ / _ * 100).
  set (h := (now - Drink.timestamp d) / (60 * 60 * 1000)).
  destruct (gtb (Qmax 0 (cur + p - METABOLISM_RATE * h)) 0) eqn:Epos.
  - eexists [_]. simpl. rewrite <- !app_assoc. simpl.
    split; [reflexivity|]. split; [lia|].
    intros s [<-|[]]. simpl.
    apply gtb_true in Epos.
    destruct (Q.max_spec 0 (cur + p - METABOLISM_RATE * h)) as [[Hx Ex]|[Hx Ex]];
      rewrite Ex in Epos; [|lra].
    subst h. rewrite div_rate. rewrite div_hour in Hx.
    unfold METABOLISM_RATE in Hx. lra.
  - exists []. simpl. rewrite <- !app_assoc. simpl.
    split; [reflexivity|]. split; [lia|]. intros s [].
Qed.

Lemma find_last_none (pre : list Drink.t) (d : Drink.t) :
  sortedDrinks = pre ++ [d] ->
  find (fun x => gtb (Drink.timestamp x) (Drink.timestamp d)) sortedDrinks
  = None.
Proof.
  intros E. apply find_later_none. rewrite E. apply sorted_last_max.
  rewrite <- E. exact sorted.
Qed.

(** The number of samples: two per drink, and one or two closing ones. *)
Lemma fold_body_length_distinct (rest : list Drink.t) :
  forall pre st,
    sortedDrinks = pre ++ rest -> rest <> [] ->
    let n := length (fst (fold_left body rest st)) in
    n = (length (fst st) + 2 * length rest + 1)%nat
    \/ n = (length (fst st) + 2 * length rest + 2)%nat.
Proof.
  induction rest as [|d rest' IH]; intros pre [res cur] E Hne;
    [contradiction|].
  cbv zeta. cbn [fold_left].
  destruct rest' as [|n post].
  - destruct (body_shape sortedDrinks gender now weight res cur d)
      as [tail (Et & Hl2 & _ & _ & Hl1)].
    specialize (Hl1 (find_last_none pre d E)).
    cbn [fold_left]. fold body in Et. rewrite Et. rewrite !length_app. simpl.
    lia.
  - destruct (body_next_distinct pre post d n res cur E) as [_ Eb].
    rewrite Eb.
    specialize (IH (pre ++ [d])
                   (res ++ [DataPoint.make (Drink.timestamp d) cur false;
                            DataPoint.make (Drink.timestamp d)
                              (cur + initialBAC gender weight d) false],
                    Qmax 0 (cur + initialBAC gender weight d
                            - METABOLISM_RATE
                              * ((Drink.timestamp n - Drink.timestamp d)
                                 / (60 * 60 * 1000))))).
    cbv zeta in IH. cbn [fst] in *. rewrite length_app in IH.
    cbn [length] in *.
    destruct IH as [IH|IH];
      [now rewrite <- app_assoc|discriminate|left; lia|right; lia].
Qed.

Hypothesis peaks_nonneg :
  forall d, In d sortedDrinks -> 0 <= initialBAC gender weight d.

(** When all drinks are past, the loop emits a sample at [now] whose level
    is at least the reading of [calculateBac] for the whole log. *)
Lemma fold_body_dominates (rest : list Drink.t) :
  forall d pre res cur,
    sortedDrinks = pre ++ d :: rest ->
    (forall x, In x (d :: rest) -> Drink.timestamp x < now) ->
    calculateBac pre gender (Drink.timestamp d) weight <= cur ->
    exists s,
      In s (fst (fold_left body (d :: rest) (res, cur)))
      /\ DataPoint.timestamp s = now
      /\ calculateBac sortedDrinks gender now weight <= DataPoint.bac s.
Proof.
  induction rest as [|n post IH]; intros d pre res cur E Hpast Hcur.
  - cbn [fold_left].
    destruct (body_last_past pre d res cur E) as [tail (Et & _ & _)].
    { apply Hpast. now left. }
    eexists. split; [|split].
    + rewrite Et. apply in_or_app. right. simpl. right. right. left.
      reflexivity.
    + reflexivity.
    + simpl. rewrite E at 1. apply chart_level_step.
      * intros y Hy.
        apply (StronglySorted_app_inv le_ts pre [d]);
          [rewrite <- E; exact sorted|exact Hy|now left].
      * apply Qlt_le_weak, Hpast. now left.
      * exact Hcur.
      * apply peaks_nonneg. rewrite E. apply in_or_app. right. now left.
  - cbn [fold_left].
    destruct (body_next_distinct pre post d n res cur E) as [Hlt Eb].
    cbn [fold_left] in IH. rewrite Eb.
    apply (IH n (pre ++ [d])).
    + now rewrite <- app_assoc.
    + intros x Hx. apply Hpast. now right.
    + apply chart_level_step.
      * intros y Hy.
        apply (StronglySorted_app_inv le_ts pre (d :: n :: post));
          [rewrite <- E; exact sorted|exact Hy|now left].
      * lra.
      * exact Hcur.
      * apply peaks_nonneg. rewrite E. apply in_or_app. right. now left.
Qed.

End SortedDistinct.

(** X19. When no two drinks share a timestamp, the chart of a non-empty log
    has two samples per drink and one or two closing samples. *)
Theorem calculateChartData_length_distinct
    (drinks : list Drink.t) (gender : Gender) (now weight : Q) :
  drinks <> [] ->
  distinct_timestamps drinks ->
  let n := length (calculateChartData drinks gender now weight) in
  n = (2 * length drinks + 1)%nat \/ n = (2 * length drinks + 2)%nat.
Proof.
  intros Hne Hdist. cbv zeta. unfold calculateChartData. cbv zeta.
  pose proof (sort_sorted drinks) as Hsorted.
  pose proof (sort_perm drinks) as Hperm.
  assert (Hd' : distinct_timestamps (sort drinks)).
  { apply distinct_timestamps_perm with drinks; [now symmetry|exact Hdist]. }
  rewrite <- (Permutation_length Hperm).
  destruct (sort drinks) as [|d r] eqn:E.
  { apply Permutation_nil in Hperm. contradiction. }
  apply (fold_body_length_distinct (d :: r) gender now weight Hsorted Hd'
           (d :: r) [] ([], 0)); [reflexivity|discriminate].
Qed.

Lemma calculateChartData_length_distinct_witness :
  let n := length (calculateChartData [beer 3600000; beer 0] male 7200000 75) in
  n = (2 * length [beer 3600000; beer 0] + 1)%nat
  \/ n = (2 * length [beer 3600000; beer 0] + 2)%nat.
Proof.
  apply (calculateChartData_length_distinct
           [beer 3600000; beer 0] male 7200000 75).
  - discriminate.
  - simpl. repeat split; try tauto. intros x [<-|[]]. discriminate.
Defined.

(** X20. When no two drinks share a timestamp and all drinks are past, the
    chart has a sample at [now] whose level is at least the reading
    [calculateBac] returns: the chart never understates the reading. *)
Theorem calculateChartData_dominates_reading
    (drinks : list Drink.t) (gender : Gender) (now weight : Q) :
  drinks <> [] ->
  distinct_timestamps drinks ->
  (forall d, In d drinks ->
             0 <= Drink.volume d /\ 0 <= Drink.alcoholPercentage d) ->
  0 < weight ->
  (forall d, In d drinks -> Drink.timestamp d < now) ->
  exists s,
    In s (calculateChartData drinks gender now weight)
    /\ DataPoint.timestamp s = now
    /\ calculateBac drinks gender now weight <= DataPoint.bac s.
Proof.
  intros Hne Hdist Hdata Hw Hpast. unfold calculateChartData. cbv zeta.
  pose proof (sort_sorted drinks) as Hsorted.
  pose proof (sort_perm drinks) as Hperm.
  assert (Hd' : distinct_timestamps (sort drinks)).
  { apply distinct_timestamps_perm with drinks; [now symmetry|exact Hdist]. }
  pose proof (calculateBac_perm gender weight now _ _ Hperm) as Ebac.
  assert (Hin : forall x, In x (sort drinks) -> In x drinks).
  { intros x Hx. now apply Permutation_in with (sort drinks). }
  destruct (sort drinks) as [|d r] eqn:E.
  { apply Permutation_nil in Hperm. contradiction. }
  destruct (fold_body_dominates (d :: r) gender now weight Hsorted Hd')
    with (pre := @nil Drink.t) (d := d) (rest := r)
         (res := @nil DataPoint.t) (cur := 0)
    as [s (Hs & Ht & Hb)].
  - intros x Hx. destruct (Hdata x (Hin x Hx)) as [Hv Hp].
    now apply bacIncrease_nonneg.
  - reflexivity.
  - intros x Hx. apply Hpast. now apply Hin.
  - apply Qle_refl.
  - exists s. split; [exact Hs|]. split; [exact Ht|].
    rewrite <- Ebac. exact Hb.
Qed.

Lemma calculateChartData_dominates_reading_witness :
  exists s,
    In s (calculateChartData [beer 3600000; beer 0] male 7200000 75)
    /\ DataPoint.timestamp s = 7200000
    /\ calculateBac [beer 3600000; beer 0] male 7200000 75 <= DataPoint.bac s.
Proof.
  apply (calculateChartData_dominates_reading
           [beer 3600000; beer 0] male 7200000 75).
  - discriminate.
  - simpl. repeat split; try tauto. intros x [<-|[]]. discriminate.
  - intros d [<-|[<-|[]]]; split; discriminate.
  - reflexivity.
  - intros d [<-|[<-|[]]]; reflexivity.
Defined.

(** X21. For a log of one past drink that is not yet metabolised, the chart
    closes at level 0 exactly at the displayed sober time. *)
Theorem calculateChartData_closes_at_soberTime
    (d : Drink.t) (gender : Gender) (now weight bacLimit : Q) :
  0 < weight ->
  Drink.timestamp d < now ->
  0 < calculateBac [d] gender now weight ->
  exists s,
    at_last (calculateChartData [d] gender now weight) = Some s
    /\ DataPoint.bac s = 0
    /\ DataPoint.timestamp s
       == Derived.soberTime
            (derivedValues (calculateBac [d] gender now weight) bacLimit now).
Proof.
  intros _ Hlt Hpos.
  rewrite (calculateChartData_single d gender now weight Hlt).
  pose proof (calculateBac_single gender weight d now (Qlt_le_weak _ _ Hlt)) as Ec.
  unfold derivedValues. cbn [Derived.soberTime].
  set (bac := calculateBac [d] gender now weight) in *.
  set (p := _ / _ * 100) in *.
  set (h := (now - Drink.timestamp d) / (60 * 60 * 1000)) in *.
  assert (Epos : gtb (Qmax 0 (0 + p - METABOLISM_RATE * h)) 0 = true).
  { apply gtb_true. revert Ec Hpos. qminmax_lra. }
  rewrite Epos. eexists. split; [reflexivity|]. split; [reflexivity|].
  cbn [DataPoint.timestamp].
  rewrite estimateTimeUntilTarget_max, div_rate.
  subst h. rewrite div_hour in Ec.
  unfold METABOLISM_RATE in Ec. revert Ec Hpos. qminmax_lra.
Qed.

Lemma calculateChartData_closes_at_soberTime_witness :
  exists s,
    at_last (calculateChartData [beer 0] male 3600000 75) = Some s
    /\ DataPoint.bac s = 0
    /\ DataPoint.timestamp s
       == Derived.soberTime
            (derivedValues (calculateBac [beer 0] male 3600000 75) 0.05 3600000).
Proof.
  apply (calculateChartData_closes_at_soberTime (beer 0) male 3600000 75 0.05);
    reflexivity.
Defined.

(** * The chart domain and the axis ticks *)

Lemma at_last_app {A : Type} (l : list A) (x : A) :
  at_last l = Some x -> exists pre, l = pre ++ [x].
Proof.
  induction l as [|a r IH]; simpl; [discriminate|].
  destruct r as [|b r'].
  - intros [= ->]. now exists [].
  - intros H. destruct (IH H) as [pre E]. exists (a :: pre).
    simpl. now rewrite E.
Qed.

Lemma chronological_tail (a : DataPoint.t) (l : list DataPoint.t) :
  chronological (a :: l) -> chronological l.
Proof. intros H i x y Hx Hy. exact (H (S i) x y Hx Hy). Qed.

Lemma chronological_StronglySorted (l : list DataPoint.t) :
  chronological l -> StronglySorted le_time l.
Proof.
  intros H. apply Sorted_StronglySorted.
  - intros x y z. unfold le_time. apply Qle_trans.
  - induction l as [|a r IH]; constructor.
    + apply IH. now apply chronological_tail with a.
    + destruct r as [|b r']; constructor.
      exact (H 0%nat a b eq_refl eq_refl).
Qed.

(** X22. The chart domain leaves at least five minutes on either side of
    the current time, of the first sample (below) and of the last sample
    (above). *)
Theorem chartDomain_margins
    (drinks : list Drink.t) (chartData : list DataPoint.t) (currentTime : Q) :
  let domain := chartDomain drinks chartData currentTime in
  fst domain + 5 * 60 * 1000 <= currentTime
  /\ currentTime <= snd domain - 5 * 60 * 1000
  /\ (forall s, drinks <> [] -> nth_error chartData 0 = Some s ->
                fst domain + 5 * 60 * 1000 <= DataPoint.timestamp s)
  /\ (forall s, drinks <> [] -> at_last chartData = Some s ->
                DataPoint.timestamp s <= snd domain - 5 * 60 * 1000).
Proof.
  cbv zeta. unfold chartDomain.
  destruct drinks as [|d r]; cbn [fst snd].
  - repeat split; try lra; intros s H; contradiction.
  - repeat split.
    + qminmax_lra.
    + qminmax_lra.
    + intros s _ ->. qminmax_lra.
    + intros s _ ->. qminmax_lra.
Qed.

(** X23. When no two drinks share a timestamp (and volumes, strengths and
    the weight are as the data model has them), every sample of the chart
    lies inside the chart domain, at least five minutes from either end. *)
Theorem chartDomain_encloses_chart
    (drinks : list Drink.t) (gender : Gender) (currentTime weight : Q) :
  distinct_timestamps drinks ->
  (forall d, In d drinks ->
             0 <= Drink.volume d /\ 0 <= Drink.alcoholPercentage d) ->
  0 < weight ->
  let chartData := calculateChartData drinks gender currentTime weight in
  let domain := chartDomain drinks chartData currentTime in
  forall s, In s chartData ->
    fst domain + 5 * 60 * 1000 <= DataPoint.timestamp s
    /\ DataPoint.timestamp s <= snd domain - 5 * 60 * 1000.
Proof.
  intros Hdist Hdata Hw. cbv zeta. intros s Hs.
  pose proof (chronological_StronglySorted _
                (calculateChartData_chronological_distinct
                   drinks gender currentTime weight Hdist Hdata Hw)) as SS.
  set (chartData := calculateChartData drinks gender currentTime weight) in *.
  destruct drinks as [|d0 r0]; [contradiction|].
  unfold chartDomain. cbn [fst snd].
  destruct chartData as [|f rest] eqn:Ec; [contradiction|].
  cbn [nth_error].
  assert (Hfirst : DataPoint.timestamp f <= DataPoint.timestamp s).
  { apply StronglySorted_inv in SS. destruct SS as [_ F].
    destruct Hs as [<-|Hs]; [apply Qle_refl|].
    rewrite Forall_forall in F. now apply F. }
  destruct (at_last (f :: rest)) as [z|] eqn:Ez.
  - destruct (at_last_app _ _ Ez) as [pre Epre].
    assert (Hlast : DataPoint.timestamp s <= DataPoint.timestamp z).
    { rewrite Epre in SS, Hs. apply in_app_or in Hs.
      destruct Hs as [Hs|[<-|[]]]; [|apply Qle_refl].
      apply (StronglySorted_app_inv le_time pre [z] SS); [exact Hs|now left]. }
    split; qminmax_lra.
  - exfalso. clear - Ez. revert f Ez.
    induction rest as [|b r IH]; intros f Ez; [discriminate|].
    exact (IH b Ez).
Qed.

Lemma chartDomain_encloses_chart_witness :
  let chartData := calculateChartData [beer 3600000; beer 0] male 7200000 75 in
  let domain := chartDomain [beer 3600000; beer 0] chartData 7200000 in
  fst domain + 5 * 60 * 1000 <= 0
  /\ 0 <= snd domain - 5 * 60 * 1000.
Proof.
  cbv zeta.
  apply (chartDomain_encloses_chart [beer 3600000; beer 0] male 7200000 75)
    with (s := DataPoint.make 0 0 false).
  - simpl. repeat split; try tauto. intros x [<-|[]]. discriminate.
  - intros d [<-|[<-|[]]]; split; discriminate.
  - reflexivity.
  - vm_compute. tauto.
Defined.

Lemma chartDomain_width
    (drinks : list Drink.t) (chartData : list DataPoint.t) (currentTime : Q) :
  fst (chartDomain drinks chartData currentTime) + 10 * 60 * 1000
  <= snd (chartDomain drinks chartData currentTime).
Proof.
  unfold chartDomain. destruct drinks; cbn [fst snd]; qminmax_lra.
Qed.

Lemma ticks_values (a b : Q) :
  Forall2 Qeq (ticks (a, b))
    [a; a + (b - a) * (1 # 5); a + (b - a) * (2 # 5);
     a + (b - a) * (3 # 5); a + (b - a) * (4 # 5); b].
Proof.
  unfold ticks. simpl. repeat constructor; field.
Qed.

(** X24. The axis has six ticks, the first at the start of the chart domain
    and the last at its end, and each tick is at least two minutes after
    the one before it. *)
Theorem ticks_of_chartDomain
    (drinks : list Drink.t) (chartData : list DataPoint.t) (currentTime : Q) :
  let domain := chartDomain drinks chartData currentTime in
  let axis := ticks domain in
  length axis = 6%nat
  /\ nth 0 axis 0 == fst domain
  /\ nth 5 axis 0 == snd domain
  /\ (forall i, (i < 5)%nat ->
        nth i axis 0 + 2 * 60 * 1000 <= nth (S i) axis 0).
Proof.
  cbv zeta.
  pose proof (chartDomain_width drinks chartData currentTime) as Hwidth.
  destruct (chartDomain drinks chartData currentTime) as [a b].
  cbn [fst snd] in *.
  pose proof (ticks_values a b) as Hv.
  destruct (ticks (a, b)) as [|t0 [|t1 [|t2 [|t3 [|t4 [|t5 [|t6 r]]]]]]];
    try (exfalso; apply Forall2_length in Hv; simpl in Hv; lia).
  inversion_clear Hv as [|? ? ? ? E0 Hv1].
  inversion_clear Hv1 as [|? ? ? ? E1 Hv2].
  inversion_clear Hv2 as [|? ? ? ? E2 Hv3].
  inversion_clear Hv3 as [|? ? ? ? E3 Hv4].
  inversion_clear Hv4 as [|? ? ? ? E4 Hv5].
  inversion_clear Hv5 as [|? ? ? ? E5 _].
  simpl. repeat split; try assumption.
  intros i Hi.
  destruct i as [|[|[|[|[|i]]]]]; simpl; try lia; lra.
Qed.

Lemma chartDomain_margins_witness :
  let chartData := calculateChartData [beer 0] male 3600000 75 in
  let domain := chartDomain [beer 0] chartData 3600000 in
  fst domain + 5 * 60 * 1000 <= 0.
Proof.
  cbv zeta.
  apply (proj1 (proj2 (proj2
           (chartDomain_margins
              [beer 0] (calculateChartData [beer 0] male 3600000 75) 3600000)))
           (DataPoint.make 0 0 false));
    [discriminate|reflexivity].
Defined.

Lemma ticks_of_chartDomain_witness :
  let axis := ticks (chartDomain [] [] 3600000) in
  nth 2 axis 0 + 2 * 60 * 1000 <= nth 3 axis 0.
Proof.
  cbv zeta.
  apply (ticks_of_chartDomain [] [] 3600000). lia.
Defined.

(** X25. When no two drinks share a timestamp (and volumes, strengths and
    the weight are as the data model has them), the samples of the chart
    are in chronological order. *)
Theorem calculateChartData_chronological_when_distinct
    (drinks : list Drink.t) (gender : Gender) (now weight : Q) :
  distinct_timestamps drinks ->
  (forall d, In d drinks ->
             0 <= Drink.volume d /\ 0 <= Drink.alcoholPercentage d) ->
  0 < weight ->
  chronological (calculateChartData drinks gender now weight).
Proof. apply calculateChartData_chronological_distinct. Qed.

Lemma calculateChartData_chronological_when_distinct_witness :
  chronological
    (calculateChartData [beer 7200000; beer 0; beer 3600000] female 9000000 60).
Proof.
  apply (calculateChartData_chronological_when_distinct
           [beer 7200000; beer 0; beer 3600000] female 9000000 60).
  - simpl. repeat split; try tauto.
    + intros x [<-|[<-|[]]]; discriminate.
    + intros x [<-|[]]. discriminate.
  - intros d [<-|[<-|[<-|[]]]]; split; discriminate.
  - reflexivity.
Defined.
